(** * A shallow embedding of [bot.py]: the task store and the chat handlers

    The program keeps one MySQL table, [tasks], and answers Telegram
    messages and inline-button callbacks.  The table is modelled as a finite
    map from its primary key [(user_id, id)] to the remaining columns, the
    four CRUD functions as functions on that map, and the handlers as
    computations in a small state-and-exception monad over the table, the
    registered next-step handlers and the messages sent so far.

    What stays outside the model: the connection pool and its retries, the
    log, and failures of the transport or of the database connection (every
    statement reaches the server and every reply is delivered).  The ranges
    of the INT, BIGINT and TEXT columns are not modelled either. *)

From Stdlib Require Import ZArith NArith Ascii String.
From stdpp Require Import gmap list sorting strings.

Open Scope Z_scope.

(** ** Python strings *)

(** A Python [str] is a sequence of Unicode code points. *)
Abbreviation str := (list N).

(** An ASCII literal as a [str]. *)
Definition lit (s : string) : str :=
  (λ a, N_of_ascii a) <$> list_ascii_of_string s.

(** [str.isspace] for one character: the code points for which CPython's
    [_PyUnicode_IsWhitespace] answers true. *)
Definition isspace (c : N) : bool :=
  ((0x09 <=? c) && (c <=? 0x0D) ||
   (0x1C <=? c) && (c <=? 0x20) ||
   (c =? 0x85) || (c =? 0xA0) || (c =? 0x1680) ||
   (0x2000 <=? c) && (c <=? 0x200A) ||
   (c =? 0x2028) || (c =? 0x2029) || (c =? 0x202F) ||
   (c =? 0x205F) || (c =? 0x3000))%N.

Fixpoint dropwhile {A} (p : A → bool) (l : list A) : list A :=
  match l with
  | x :: l' => if p x then dropwhile p l' else l
  | [] => []
  end.

Definition lstrip (s : str) : str := dropwhile isspace s.

Definition rstrip (s : str) : str := reverse (lstrip (reverse s)).

(** [s.strip()] *)
Definition strip (s : str) : str := rstrip (lstrip s).

(** [s.split()]: the maximal runs of non-whitespace characters.  [word]
    holds the run being read, last character first. *)
Fixpoint split_from (word : str) (s : str) : list str :=
  match s with
  | [] => match word with [] => [] | _ => [reverse word] end
  | c :: s' =>
      if isspace c
      then match word with
           | [] => split_from [] s'
           | _ => reverse word :: split_from [] s'
           end
      else split_from (c :: word) s'
  end.

Definition split (s : str) : list str := split_from [] s.

(** [s.startswith(p)] *)
Fixpoint startswith (s p : str) {struct p} : bool :=
  match p, s with
  | [], _ => true
  | _ :: _, [] => false
  | c :: p', d :: s' => (c =? d)%N && startswith s' p'
  end.

(** [s.split(sep, 1)] for a one-character separator: one piece when [sep]
    does not occur, otherwise the text before and after its first
    occurrence. *)
Fixpoint split1 (sep : N) (s : str) : list str :=
  match s with
  | [] => [[]]
  | c :: s' =>
      if (c =? sep)%N then [[]; s']
      else match split1 sep s' with
           | h :: t => (c :: h) :: t
           | [] => [[c]]
           end
  end.

(** [x or ''] for an optional string. *)
Definition or_empty (x : option str) : str :=
  match x with
  | Some s => s
  | None => []
  end.

(** ** The table *)

(** The columns of [tasks] besides the key. *)
Record row := Row {
  description : str;
  done : bool;
  created_at : Z
}.

(** [PRIMARY KEY (user_id, id)]: at most one row for each pair. *)
Abbreviation tasks := (gmap (Z * Z) row).

(** A row as [cursor(dictionary=True)] returns it for
    [SELECT id, description, done, created_at]. *)
Abbreviation task := (Z * row)%type.

Definition task_of (kr : Z * Z * row) : task := (kr.1.2, kr.2).

Inductive exn :=
  | IntegrityError   (* duplicate entry for the primary key *)
  | ValueError       (* int() of a string that is no integer *)
  | IndexError       (* list index out of range *)
  | AttributeError.  (* a method of None *)

Inductive result (A : Type) :=
  | Ok (a : A)
  | Raise (e : exn).
Arguments Ok {A} a.
Arguments Raise {A} e.

(** [SELECT COUNT( * ) FROM tasks WHERE user_id = %s] *)
Definition count_rows (user_id : Z) (t : tasks) : Z :=
  Z.of_nat (size (filter (λ kr : Z * Z * row, kr.1.1 = user_id) t)).

(** [add_task]: [now] is the server's CURRENT_TIMESTAMP at the INSERT, which
    fills [created_at]; [done] takes its default 0.  An INSERT whose key is
    already present fails and changes nothing. *)
Definition add_task (user_id : Z) (description : str) (now : Z) (t : tasks)
  : result Z * tasks :=
  let next_id := count_rows user_id t + 1 in
  match t !! (user_id, next_id) with
  | Some _ => (Raise IntegrityError, t)
  | None => (Ok next_id, <[(user_id, next_id) := Row description false now]> t)
  end.

(** [ORDER BY created_at DESC]: [a] may stand before [b]. *)
Definition newer (a b : task) : Prop := created_at b.2 ≤ created_at a.2.

#[global] Instance newer_dec a b : Decision (newer a b).
Proof. unfold newer. apply _. Defined.

(** The rows a SELECT of [list_tasks] matches, before they are ordered. *)
Definition select_tasks (user_id : Z) (include_done : bool) (t : tasks)
  : list task :=
  if include_done
  then task_of <$> map_to_list
         (filter (λ kr : Z * Z * row, kr.1.1 = user_id) t)
  else task_of <$> map_to_list
         (filter (λ kr : Z * Z * row, kr.1.1 = user_id ∧ done kr.2 = false) t).

(** [list_tasks].  SQL leaves the order of rows with equal [created_at]
    open; here it is whatever the sort makes of the map's enumeration. *)
Definition list_tasks (user_id : Z) (include_done : bool) (t : tasks)
  : list task :=
  merge_sort newer (select_tasks user_id include_done t).

(** The connection flag CLIENT_FOUND_ROWS.  [_db_config] passes no
    [client_flags], and the connector's default flags leave it off. *)
Definition CLIENT_FOUND_ROWS : bool := false.

(** [UPDATE tasks SET done = 1 WHERE id = %s AND user_id = %s] and the
    [rowcount] after it.  MySQL reports the rows it changed; with
    CLIENT_FOUND_ROWS it reports the rows the WHERE clause matched. *)
Definition update_done (found_rows : bool) (task_id user_id : Z) (t : tasks)
  : Z * tasks :=
  match t !! (user_id, task_id) with
  | Some r =>
      if done r
      then (if found_rows then 1 else 0, t)
      else (1, <[(user_id, task_id) := Row (description r) true (created_at r)]> t)
  | None => (0, t)
  end.

Definition mark_done (task_id user_id : Z) (t : tasks) : Z * tasks :=
  update_done CLIENT_FOUND_ROWS task_id user_id t.

(** [DELETE FROM tasks WHERE id = %s AND user_id = %s] and its [rowcount]. *)
Definition delete_task (task_id user_id : Z) (t : tasks) : Z * tasks :=
  match t !! (user_id, task_id) with
  | Some _ => (1, delete (user_id, task_id) t)
  | None => (0, t)
  end.

(** ** Sequences of store operations *)

Inductive op :=
  | Add (user_id : Z) (description : str) (now : Z)
  | MarkDone (task_id user_id : Z)
  | Delete (task_id user_id : Z).

Definition apply_op (o : op) (t : tasks) : tasks :=
  match o with
  | Add u d now => (add_task u d now t).2
  | MarkDone i u => (mark_done i u t).2
  | Delete i u => (delete_task i u t).2
  end.

(** The table after the operations [os], first one first. *)
Definition run (os : list op) (t : tasks) : tasks :=
  foldl (λ t o, apply_op o t) t os.

(** The states the program can bring an empty table into. *)
Definition reachable (t : tasks) : Prop := ∃ os, t = run os ∅.

(** The ids of every user are 1, ..., n, for the n rows the user has. *)
Definition dense (t : tasks) : Prop :=
  ∀ u i, is_Some (t !! (u, i)) ↔ 1 ≤ i ≤ count_rows u t.

Definition is_delete (o : op) : bool :=
  match o with
  | Delete _ _ => true
  | _ => false
  end.

(** The user an operation acts for. *)
Definition op_user (o : op) : Z :=
  match o with
  | Add u _ _ => u
  | MarkDone _ u => u
  | Delete _ u => u
  end.

(** The key an operation addresses. *)
Definition target (o : op) (t : tasks) : Z * Z :=
  match o with
  | Add u _ _ => (u, count_rows u t + 1)
  | MarkDone i u => (u, i)
  | Delete i u => (u, i)
  end.

(** [o], run on [t], is an [add] for user [u] that returns [i]. *)
Definition assigns (o : op) (t : tasks) (u i : Z) : Prop :=
  match o with
  | Add u' d now => u' = u ∧ (add_task u' d now t).1 = Ok i
  | _ => False
  end.

(** None of the operations [os], run from [t], is an [add] for [u] that
    returns [i]. *)
Fixpoint never_assigns (u i : Z) (os : list op) (t : tasks) : Prop :=
  match os with
  | [] => True
  | o :: os' => ¬ assigns o t u i ∧ never_assigns u i os' (apply_op o t)
  end.

(** ** The bot *)

(** The texts the bot sends, named by what they say. *)
Inductive reply :=
  | AskText                    (* 'Напиши текст новой задачи:' *)
  | EmptyText                  (* 'Пустой текст — задача не создана. Попробуйте ещё: /new' *)
  | Saved (tid : Z)            (* 'Задача сохранена с id={tid}' *)
  | SaveError                  (* 'Ошибка при сохранении задачи. Смотрите логи.' *)
  | NoTasks                    (* 'У вас нет активных задач. Создать: /new' *)
  | TaskLine (row : task)      (* '#{id} — {description} создано: {created_at}', with both buttons *)
  | UsageDone                  (* 'Использование: /done <id>' *)
  | UsageDelete                (* 'Использование: /delete <id>' *)
  | IdNotNumber                (* 'id должен быть числом' *)
  | MarkedDone (tid : Z)       (* 'Задача #{tid} отмечена как выполненная' *)
  | Deleted (tid : Z)          (* 'Задача #{tid} удалена' *)
  | NotFound                   (* 'Задача не найдена или у вас нет к ней доступа' *)
  | OpError                    (* 'Ошибка при выполнении операции. Смотрите логи.' *)
  | CbMarked                   (* 'Отмечено как выполненное' *)
  | CbMarkedMsg (tid : Z)      (* 'Задача #{tid} отмечена выполненной' *)
  | CbDeleted                  (* 'Удалено' *)
  | CbNotFound                 (* 'Не найдено или нет прав' *)
  | CbUnknown                  (* 'Неизвестная команда' *)
  | CbServerError.             (* 'Ошибка на сервере' *)

(** The calls to the Telegram API. *)
Inductive action :=
  | SendMessage (chat_id : Z) (body : reply)
  | AnswerCallbackQuery (call_id : Z) (body : reply)
  | EditMessageReplyMarkup (chat_id message_id : Z).

Record message := Message {
  chat_id : Z;
  from_user : Z;
  text : option str      (* None for a sticker, a photo, ... *)
}.

Record callback := Callback {
  call_id : Z;
  call_from : Z;
  call_chat : Z;
  call_message : Z;
  data : option str
}.

Record world := World {
  db : tasks;
  clock : Z;             (* the database server's CURRENT_TIMESTAMP *)
  awaiting : gset Z;     (* chats with a registered next-step handler *)
  sent : list action     (* oldest first *)
}.

(** A handler: it may change the world, and returns or raises. *)
Definition M (A : Type) : Type := world → result A * world.

#[global] Instance M_ret : MRet M := λ A a w, (Ok a, w).

#[global] Instance M_bind : MBind M := λ A B k m w,
  match m w with
  | (Ok a, w') => k a w'
  | (Raise e, w') => (Raise e, w')
  end.

Definition raise {A} (e : exn) : M A := λ w, (Raise e, w).

(** [try: m / except Exception: h] *)
Definition try_except {A} (m : M A) (h : exn → M A) : M A := λ w,
  match m w with
  | (Ok a, w') => (Ok a, w')
  | (Raise e, w') => h e w'
  end.

(** A statement on the table that cannot fail, and one that can. *)
Definition sql {A} (f : tasks → A * tasks) : M A := λ w,
  let (a, t) := f (db w) in
  (Ok a, World t (clock w) (awaiting w) (sent w)).

Definition sql_try {A} (f : tasks → result A * tasks) : M A := λ w,
  let (r, t) := f (db w) in
  (r, World t (clock w) (awaiting w) (sent w)).

Definition current_timestamp : M Z := λ w, (Ok (clock w), w).

Definition call_api (a : action) : M unit := λ w,
  (Ok tt, World (db w) (clock w) (awaiting w) (sent w ++ [a])).

Definition send_message (chat : Z) (body : reply) : M unit :=
  call_api (SendMessage chat body).

Definition answer_callback_query (call : Z) (body : reply) : M unit :=
  call_api (AnswerCallbackQuery call body).

Definition edit_message_reply_markup (chat msg : Z) : M unit :=
  call_api (EditMessageReplyMarkup chat msg).

Definition register_next_step_handler (chat : Z) : M unit := λ w,
  (Ok tt, World (db w) (clock w) ({[chat]} ∪ awaiting w) (sent w)).

(** [l[i]] *)
Definition item {A} (i : nat) (l : list A) : M A :=
  match l !! i with
  | Some a => mret a
  | None => raise IndexError
  end.

(** [if n:] for an integer. *)
Definition truthy (n : Z) : bool := negb (n =? 0).

Definition handle_new (m : message) : M unit :=
  send_message (chat_id m) AskText ;;
  register_next_step_handler (chat_id m).

Definition process_new_task (m : message) : M unit :=
  let text := strip (or_empty (text m)) in
  match text with
  | [] => send_message (chat_id m) EmptyText
  | _ =>
      try_except
        (now ← current_timestamp;
         tid ← sql_try (add_task (from_user m) text now);
         send_message (chat_id m) (Saved tid))
        (λ _, send_message (chat_id m) SaveError)
  end.

Definition handle_list (m : message) : M unit :=
  rows ← sql (λ t, (list_tasks (from_user m) false t, t));
  match rows with
  | [] => send_message (chat_id m) NoTasks
  | _ => foldr (λ row k, send_message (chat_id m) (TaskLine row) ;; k)
               (mret tt) rows
  end.

(** [message.text.split()] *)
Definition split_text (m : message) : M (list str) :=
  match text m with
  | Some s => mret (split s)
  | None => raise AttributeError
  end.

(** telebot's [_notify_next_handlers]: a message in a chat with a registered
    next-step handler goes to that handler, and the registration is used up.
    The answer is whether that happened. *)
Definition notify_next_handlers (m : message) : M bool := λ w,
  if decide (chat_id m ∈ awaiting w)
  then (process_new_task m ;; mret true)
         (World (db w) (clock w) (awaiting w ∖ {[chat_id m]}) (sent w))
  else (Ok false, w).

(** The dispatcher's state for a chat. *)
Inductive dstate := Idle | AwaitingDescription.

Definition chat_state (chat : Z) (w : world) : dstate :=
  if decide (chat ∈ awaiting w) then AwaitingDescription else Idle.

Section Runtime.

(** The built-in [int] on a string; [None] stands for ValueError. *)
Variable int_of_str : str → option Z.

Definition int (s : str) : M Z :=
  match int_of_str s with
  | Some n => mret n
  | None => raise ValueError
  end.

Definition handle_done_cmd (m : message) : M unit :=
  parts ← split_text m;
  match parts !! 1%nat with
  | None => send_message (chat_id m) UsageDone
  | Some p =>
      match int_of_str p with
      | None => send_message (chat_id m) IdNotNumber
      | Some tid =>
          try_except
            (affected ← sql (mark_done tid (from_user m));
             if truthy affected
             then send_message (chat_id m) (MarkedDone tid)
             else send_message (chat_id m) NotFound)
            (λ _, send_message (chat_id m) OpError)
      end
  end.

Definition handle_delete_cmd (m : message) : M unit :=
  parts ← split_text m;
  match parts !! 1%nat with
  | None => send_message (chat_id m) UsageDelete
  | Some p =>
      match int_of_str p with
      | None => send_message (chat_id m) IdNotNumber
      | Some tid =>
          try_except
            (affected ← sql (delete_task tid (from_user m));
             if truthy affected
             then send_message (chat_id m) (Deleted tid)
             else send_message (chat_id m) NotFound)
            (λ _, send_message (chat_id m) OpError)
      end
  end.

Definition handle_callback (call : callback) : M unit :=
  let data := or_empty (data call) in
  try_except
    (if startswith data (lit "done:") then
       tid ← item 1 (split1 58 data) ≫= int;
       affected ← sql (mark_done tid (call_from call));
       if truthy affected then
         answer_callback_query (call_id call) CbMarked ;;
         try_except
           (edit_message_reply_markup (call_chat call) (call_message call))
           (λ _, mret tt) ;;
         send_message (call_chat call) (CbMarkedMsg tid)
       else answer_callback_query (call_id call) CbNotFound
     else if startswith data (lit "del:") then
       tid ← item 1 (split1 58 data) ≫= int;
       affected ← sql (delete_task tid (call_from call));
       if truthy affected then
         answer_callback_query (call_id call) CbDeleted ;;
         try_except
           (edit_message_reply_markup (call_chat call) (call_message call))
           (λ _, mret tt) ;;
         send_message (call_chat call) (Deleted tid)
       else answer_callback_query (call_id call) CbNotFound
     else answer_callback_query (call_id call) CbUnknown)
    (λ _, try_except
            (answer_callback_query (call_id call) CbServerError)
            (λ _, mret tt)).

(** [d] has the form [prefix<integer>]. *)
Definition is_payload (prefix d : str) : Prop :=
  ∃ rest n, d = prefix ++ rest ∧ int_of_str rest = Some n.

End Runtime.

(** An [int] for ASCII numerals: blanks around an optional sign and decimal
    digits, where single underscores may separate digits.  The built-in
    accepts the digits and the blanks of other scripts as well; this one
    serves to run the handlers on examples. *)
Definition digit (c : N) : option Z :=
  if ((48 <=? c) && (c <=? 57))%N then Some (Z.of_N (c - 48)) else None.

Fixpoint digits (acc : Z) (after_digit : bool) (s : str) : option Z :=
  match s with
  | [] => if after_digit then Some acc else None
  | c :: s' =>
      if (c =? 95)%N
      then (if after_digit then digits acc false s' else None)
      else match digit c with
           | Some d => digits (10 * acc + d) true s'
           | None => None
           end
  end.

Definition isblank (c : N) : bool :=
  ((9 <=? c) && (c <=? 13) || (c =? 32))%N.

Definition int_ascii (s : str) : option Z :=
  let s := reverse (dropwhile isblank (reverse (dropwhile isblank s))) in
  match s with
  | c :: s' =>
      if (c =? 45)%N then Z.opp <$> digits 0 false s'
      else if (c =? 43)%N then digits 0 false s'
      else digits 0 false s
  | [] => None
  end.


(** ** Calls of the handlers *)

(** No stored description is empty or has whitespace at either end. *)
Definition clean (t : tasks) : Prop :=
  ∀ k r, t !! k = Some r →
    description r ≠ [] ∧ strip (description r) = description r.

(** One call of a handler by the framework. *)
Inductive event :=
  | OnNew (m : message)         (* /new *)
  | OnNextStep (m : message)    (* the message after /new *)
  | OnList (m : message)        (* /list *)
  | OnDone (m : message)        (* /done *)
  | OnDelete (m : message)      (* /delete *)
  | OnCallback (c : callback).  (* a button under a listed task *)

(** The user the call is made for. *)
Definition event_user (e : event) : Z :=
  match e with
  | OnNew m | OnNextStep m | OnList m | OnDone m | OnDelete m => from_user m
  | OnCallback c => call_from c
  end.

(** A command handler is called with a text message only. *)
Definition has_text (e : event) : Prop :=
  match e with
  | OnDone m | OnDelete m => is_Some (text m)
  | _ => True
  end.

Section Calls.

Variable int_of_str : str → option Z.

Definition call_handler (e : event) : M unit :=
  match e with
  | OnNew m => handle_new m
  | OnNextStep m => process_new_task m
  | OnList m => handle_list m
  | OnDone m => handle_done_cmd int_of_str m
  | OnDelete m => handle_delete_cmd int_of_str m
  | OnCallback c => handle_callback int_of_str c
  end.

(** The world after the calls [es], first one first. *)
Definition run_handlers (es : list event) (w : world) : world :=
  foldl (λ w e, (call_handler e w).2) w es.

End Calls.

(** ** The connection pool *)

(** What [create_pool_with_retry] can raise. *)
Inductive pool_exn (err : Type) :=
  | Reraised (e : err)    (* [raise last_exc], the last attempt's exception *)
  | RaiseNone             (* TypeError: [raise last_exc] with [last_exc] None *)
  | NegativeSleep.        (* ValueError: [time.sleep] of a negative delay *)
Arguments Reraised {err} e.
Arguments RaiseNone {err}.
Arguments NegativeSleep {err}.

(** Where [get_conn] takes a connection from. *)
Inductive conn_source (pool : Type) :=
  | Direct                (* [mysql.connector.connect] *)
  | FromPool (p : pool).  (* [_pool.get_connection()] *)
Arguments Direct {pool}.
Arguments FromPool {pool} p.

Section Pool.

Variables pool err : Type.

(** The outcome of the calls of [pooling.MySQLConnectionPool], the first
    one numbered 0: a pool, or the exception raised. *)
Variable new_pool : nat → pool + err.

(** The loop of [create_pool_with_retry] with [n] attempts left, [k]
    attempts made, and the delays slept so far. *)
Fixpoint attempts (delay : Z) (n k : nat) (last_exc : option err)
    (slept : list Z) : (pool + pool_exn err) * list Z :=
  match n with
  | O =>
      (inr (match last_exc with
            | Some e => Reraised e
            | None => RaiseNone
            end), slept)
  | S n' =>
      match new_pool k with
      | inl p => (inl p, slept)
      | inr e =>
          if delay <? 0 then (inr NegativeSleep, slept)
          else attempts delay n' (S k) (Some e) (slept ++ [delay])
      end
  end.

(** [create_pool_with_retry]: the pool or the exception, and the delays
    slept. *)
Definition create_pool_with_retry (retries delay : Z)
  : (pool + pool_exn err) * list Z :=
  attempts delay (Z.to_nat retries) 0 None [].

(** [_pool] after the module is loaded: the exception of
    [create_pool_with_retry()] is logged and dropped. *)
Definition startup_pool : option pool :=
  match (create_pool_with_retry 10 3).1 with
  | inl p => Some p
  | inr _ => None
  end.

Definition get_conn (_pool : option pool) : conn_source pool :=
  match _pool with
  | None => Direct
  | Some p => FromPool p
  end.

End Pool.


(** * Properties *)

(** ** Strings *)

Lemma dropwhile_all {A} (p : A → bool) (l : list A) :
  Forall (λ x, p x = true) l → dropwhile p l = [].
Proof. induction 1 as [|x l Hx _ IH]; simpl; [done|]. by rewrite Hx. Qed.

Lemma dropwhile_nil_inv {A} (p : A → bool) (l : list A) :
  dropwhile p l = [] → Forall (λ x, p x = true) l.
Proof.
  induction l as [|x l IH]; simpl; [constructor|].
  destruct (p x) eqn:Hx; [|done]. intros. constructor; auto.
Qed.

(** [strip] leaves nothing exactly of the strings made of whitespace. *)
Lemma strip_nil (s : str) :
  strip s = [] ↔ Forall (λ c, isspace c = true) s.
Proof.
  unfold strip, rstrip, lstrip. split.
  - intros H. apply dropwhile_nil_inv.
    destruct (dropwhile isspace s) as [|c s'] eqn:E; [done|exfalso].
    apply (f_equal reverse) in H. rewrite reverse_involutive in H.
    apply dropwhile_nil_inv in H. rewrite Forall_reverse in H.
    inversion H as [|?? Hc _]; subst.
    clear -E Hc. induction s as [|d s IH]; simpl in E; [done|].
    destruct (isspace d) eqn:Hd; [auto|]. congruence.
  - intros H. by rewrite (dropwhile_all _ _ H).
Qed.

Lemma startswith_app (p s : str) : startswith (p ++ s) p = true.
Proof. induction p as [|c p IH]; simpl; [done|]. by rewrite N.eqb_refl, IH. Qed.

Lemma startswith_inv (s p : str) :
  startswith s p = true → ∃ rest, s = p ++ rest.
Proof.
  revert s. induction p as [|c p IH]; intros s; simpl; [by exists s|].
  destruct s as [|d s]; [done|].
  intros [Hc Hs]%andb_prop. apply N.eqb_eq in Hc as ->.
  destruct (IH _ Hs) as [rest ->]. by exists rest.
Qed.

(** ** The table *)

#[global] Instance newer_total : Total newer.
Proof. intros a b. unfold newer. lia. Qed.

#[global] Instance newer_trans : Transitive newer.
Proof. intros a b c. unfold newer. lia. Qed.

Lemma elem_of_select_tasks (u : Z) (inc : bool) (t : tasks) (x : task) :
  x ∈ select_tasks u inc t ↔
  t !! (u, x.1) = Some x.2 ∧ (inc = true ∨ done x.2 = false).
Proof.
  destruct x as [i r]. unfold select_tasks.
  destruct inc; rewrite list_elem_of_fmap; split.
  - intros ([[u' i'] r'] & [= -> ->] & H). apply elem_of_map_to_list in H.
    apply map_lookup_filter_Some in H as [H Hu]. simpl in *. subst. auto.
  - intros [H _]. exists (u, i, r). split; [done|].
    apply elem_of_map_to_list. by apply map_lookup_filter_Some.
  - intros ([[u' i'] r'] & [= -> ->] & H). apply elem_of_map_to_list in H.
    apply map_lookup_filter_Some in H as [H [Hu Hd]]. simpl in *. subst. auto.
  - intros [H [?|Hd]]; [done|]. exists (u, i, r). split; [done|].
    apply elem_of_map_to_list. by apply map_lookup_filter_Some.
Qed.

Lemma list_tasks_perm (u : Z) (inc : bool) (t : tasks) :
  list_tasks u inc t ≡ₚ select_tasks u inc t.
Proof. apply merge_sort_Permutation. Qed.

Lemma elem_of_list_tasks (u : Z) (inc : bool) (t : tasks) (x : task) :
  x ∈ list_tasks u inc t ↔
  t !! (u, x.1) = Some x.2 ∧ (inc = true ∨ done x.2 = false).
Proof. by rewrite list_tasks_perm, elem_of_select_tasks. Qed.

Lemma list_tasks_sorted (u : Z) (inc : bool) (t : tasks) :
  StronglySorted newer (list_tasks u inc t).
Proof. apply StronglySorted_merge_sort; apply _. Qed.

(** No task is listed twice. *)
Lemma list_tasks_NoDup (u : Z) (inc : bool) (t : tasks) :
  NoDup (list_tasks u inc t).
Proof.
  rewrite list_tasks_perm. unfold select_tasks.
  destruct inc; (apply NoDup_fmap_2_strong; [|apply NoDup_map_to_list]);
    intros [[u1 i1] r1] [[u2 i2] r2] H1 H2 [= -> ->];
    apply elem_of_map_to_list, map_lookup_filter_Some in H1, H2;
    simpl in *; destruct H1 as [_ H1], H2 as [_ H2]; f_equal; f_equal;
    intuition congruence.
Qed.

(** ** The listing *)

(** C5: [list_tasks] without [include_done] returns exactly the rows of
    the user that are not done, so never a row of somebody else and never a
    done one; with [include_done] it returns all rows of the user, done or
    not.  An entry [(i, r)] is listed when [r] is the row stored under the
    key [(u, i)]. *)
Theorem list_tasks_filters (u : Z) (t : tasks) (x : task) :
  (x ∈ list_tasks u false t ↔ t !! (u, x.1) = Some x.2 ∧ done x.2 = false) ∧
  (x ∈ list_tasks u true t ↔ t !! (u, x.1) = Some x.2).
Proof.
  rewrite !elem_of_list_tasks. split; split; intros H.
  - destruct H as [? [?|?]]; [done|auto].
  - destruct H; auto.
  - by destruct H.
  - auto.
Qed.

(** C6: when the tasks listed for a user are [a], [b] and [c], created at
    times [ta < tb < tc], the listing is [c; b; a], the most recent first. *)
Theorem list_tasks_newest_first (u : Z) (inc : bool) (t : tasks) (a b c : task) :
  list_tasks u inc t ≡ₚ [a; b; c] →
  created_at a.2 < created_at b.2 < created_at c.2 →
  list_tasks u inc t = [c; b; a].
Proof.
  intros Hp [Hab Hbc].
  apply (StronglySorted_unique_strong newer).
  - intros x y Hx Hy Hxy Hyx. rewrite Hp in Hx. unfold newer in *.
    assert (created_at x.2 = created_at y.2) as E by lia.
    set_unfold. destruct Hx as [->|[->|[->|[]]]], Hy as [->|[->|[->|[]]]];
      done || lia.
  - apply list_tasks_sorted.
  - repeat constructor; unfold newer; lia.
  - rewrite Hp. apply NoDup_Permutation.
    + apply (NoDup_fmap_1 (λ x : task, created_at x.2)). simpl.
      repeat constructor; set_unfold; lia.
    + apply (NoDup_fmap_1 (λ x : task, created_at x.2)). simpl.
      repeat constructor; set_unfold; lia.
    + intros x. set_unfold. tauto.
Qed.

Lemma list_tasks_newest_first_witness :
  list_tasks 7 true
    (run [Add 7 (lit "a") 10; Add 7 (lit "b") 20; Add 7 (lit "c") 30] ∅)
  = [(3, Row (lit "c") false 30); (2, Row (lit "b") false 20);
     (1, Row (lit "a") false 10)].
Proof.
  apply (list_tasks_newest_first 7 true _
           (1, Row (lit "a") false 10) (2, Row (lit "b") false 20)
           (3, Row (lit "c") false 30)).
  - vm_compute. apply Permutation_rev.
  - simpl. lia.
Defined.

(** ** What the operations change *)

Ltac unfold_ops :=
  unfold apply_op, target, add_task, mark_done, update_done, delete_task in *;
  simpl in *.

(** An operation leaves every row but the one it addresses as it is. *)
Lemma apply_op_other (o : op) (t : tasks) (k : Z * Z) :
  k ≠ target o t → apply_op o t !! k = t !! k.
Proof.
  intros Hk. destruct o; unfold_ops.
  - destruct (t !! _); simpl; [done|]. by rewrite lookup_insert_ne.
  - destruct (t !! _) as [r|]; simpl; [|done].
    destruct (done r); simpl; [done|]. by rewrite lookup_insert_ne.
  - destruct (t !! _); simpl; [|done]. by rewrite lookup_delete_ne.
Qed.

(** C8: how the row under a key [k = (user_id, id)] fares in one
    operation.  A row that stays keeps its description and its creation
    time, and a done row stays done; if it changes at all, the operation was
    [mark_done] on this very key and [done] went from false to true.  A row
    disappears only by [delete_task] on its key, and a row that appears is
    the one [add_task] has just made, not done. *)
Theorem rows_change_only_by_mark_done (o : op) (t : tasks) (k : Z * Z) :
  match t !! k, apply_op o t !! k with
  | Some r, Some r' =>
      description r' = description r ∧ created_at r' = created_at r ∧
      (done r = true → done r' = true) ∧
      (r' ≠ r → o = MarkDone k.2 k.1 ∧ done r = false ∧ done r' = true)
  | Some r, None => o = Delete k.2 k.1
  | None, Some r' => ∃ d now, o = Add k.1 d now ∧ r' = Row d false now
  | None, None => True
  end.
Proof.
  destruct (decide (k = target o t)) as [->|Hk].
  - destruct o; unfold apply_op, target, add_task, mark_done, update_done,
      delete_task.
    + destruct (t !! _) eqn:E; cbn [fst snd].
      * rewrite E. by split_and!.
      * rewrite lookup_insert_eq. eauto.
    + destruct (t !! _) as [r|] eqn:E; cbn [fst snd]; rewrite ?E; [|done].
      destruct (done r) eqn:Hd; cbn [fst snd].
      * rewrite E. by split_and!.
      * rewrite lookup_insert_eq. by split_and!.
    + destruct (t !! _) eqn:E; cbn [fst snd].
      * by rewrite lookup_delete_eq.
      * by rewrite E.
  - rewrite (apply_op_other _ _ _ Hk). destruct (t !! k); [|done].
    by split_and!.
Qed.

(** [mark_done] neither adds nor removes a key. *)
Lemma mark_done_dom (i u : Z) (t : tasks) : dom (mark_done i u t).2 = dom t.
Proof.
  unfold_ops. destruct (t !! _) as [r|] eqn:E; [|done].
  destruct (done r); simpl; [done|].
  apply dom_insert_lookup_L. by rewrite E.
Qed.

(** ** Task ids *)

(** [add_task] on a table in which the key it computes is free. *)
Lemma add_task_fresh (u : Z) (d : str) (now : Z) (t : tasks) :
  t !! (u, count_rows u t + 1) = None →
  add_task u d now t =
    (Ok (count_rows u t + 1),
     <[(u, count_rows u t + 1) := Row d false now]> t).
Proof. intros H. unfold add_task. by rewrite H. Qed.

(** [add_task] returns no other id than the number of rows plus one. *)
Lemma add_task_returns (u : Z) (d : str) (now : Z) (t : tasks) (i : Z) :
  (add_task u d now t).1 = Ok i → i = count_rows u t + 1.
Proof. unfold add_task. destruct (t !! _); simpl; congruence. Qed.

(** A row put under a free key of the user is one more entry to list. *)
Lemma list_tasks_insert_fresh (u i : Z) (r : row) (inc : bool) (t : tasks) :
  t !! (u, i) = None → inc = true ∨ done r = false →
  list_tasks u inc (<[(u, i) := r]> t) ≡ₚ (i, r) :: list_tasks u inc t.
Proof.
  intros Hfree Hr. rewrite !list_tasks_perm. unfold select_tasks.
  destruct inc.
  - rewrite map_filter_insert_True by done.
    rewrite map_to_list_insert by (apply map_lookup_filter_None_2; auto).
    by rewrite fmap_cons.
  - destruct Hr as [?|Hr]; [done|].
    rewrite map_filter_insert_True by done.
    rewrite map_to_list_insert by (apply map_lookup_filter_None_2; auto).
    by rewrite fmap_cons.
Qed.

(** Where [add_task] goes through, it does what C1 says: the id is the
    number of the user's rows plus one, and the user's listing gains exactly
    the new task, not done. *)
Lemma add_task_ok (u : Z) (d : str) (now : Z) (t : tasks) (inc : bool) :
  t !! (u, count_rows u t + 1) = None →
  (add_task u d now t).1 = Ok (count_rows u t + 1) ∧
  list_tasks u inc (add_task u d now t).2
    ≡ₚ (count_rows u t + 1, Row d false now) :: list_tasks u inc t.
Proof.
  intros H. rewrite (add_task_fresh _ _ _ _ H). split; [done|].
  apply list_tasks_insert_fresh; auto.
Qed.

(** *** As long as nothing was deleted *)

Lemma count_rows_empty (u : Z) : count_rows u ∅ = 0.
Proof. unfold count_rows. by rewrite map_filter_empty, map_size_empty. Qed.

Lemma count_rows_insert_fresh (u i : Z) (r : row) (t : tasks) :
  t !! (u, i) = None →
  count_rows u (<[(u, i) := r]> t) = count_rows u t + 1.
Proof.
  intros H. unfold count_rows. rewrite map_filter_insert_True by done.
  rewrite map_size_insert_None by (apply map_lookup_filter_None_2; auto).
  lia.
Qed.

Lemma count_rows_insert_other (u u' i : Z) (r : row) (t : tasks) :
  u' ≠ u → count_rows u' (<[(u, i) := r]> t) = count_rows u' t.
Proof.
  intros H. unfold count_rows. rewrite map_filter_insert_not; [done|].
  intros y. simpl. congruence.
Qed.

Lemma count_rows_insert_same (u u' i : Z) (r r' : row) (t : tasks) :
  t !! (u, i) = Some r' → count_rows u' (<[(u, i) := r]> t) = count_rows u' t.
Proof.
  intros H. destruct (decide (u' = u)) as [->|Hu];
    [|by apply count_rows_insert_other].
  unfold count_rows. rewrite map_filter_insert_True by done.
  rewrite map_size_insert_Some; [done|].
  exists r'. by apply map_lookup_filter_Some.
Qed.

Lemma dense_empty : dense ∅.
Proof.
  unfold dense. intros u i. rewrite lookup_empty, count_rows_empty. split.
  - by intros [? ?].
  - lia.
Qed.

Lemma dense_apply_op (o : op) (t : tasks) :
  is_delete o = false → dense t → dense (apply_op o t).
Proof.
  unfold dense. intros Ho Ht. destruct o as [u d now|i u|]; [| |done]; simpl.
  - assert (t !! (u, count_rows u t + 1) = None) as Hfree.
    { apply eq_None_not_Some. rewrite Ht. lia. }
    rewrite add_task_fresh by done. simpl. intros u' j.
    destruct (decide (u' = u)) as [->|Hu].
    + rewrite count_rows_insert_fresh by done.
      destruct (decide (j = count_rows u t + 1)) as [->|Hj].
      * rewrite lookup_insert_eq. split; [|by eauto]. intros _.
        unfold count_rows. lia.
      * rewrite lookup_insert_ne by congruence. rewrite Ht. lia.
    + rewrite count_rows_insert_other by done.
      rewrite lookup_insert_ne by congruence. apply Ht.
  - unfold mark_done, update_done.
    destruct (t !! (u, i)) as [r|] eqn:E; [|done].
    destruct (done r); simpl; [done|]. intros u' j.
    rewrite (count_rows_insert_same _ _ _ _ r) by done.
    destruct (decide ((u', j) = (u, i))) as [[= -> ->]|Hne].
    + rewrite lookup_insert_eq, <-Ht, E. split; eauto.
    + rewrite lookup_insert_ne by congruence. apply Ht.
Qed.

Lemma dense_run (os : list op) (t : tasks) :
  forallb (λ o, negb (is_delete o)) os = true → dense t → dense (run os t).
Proof.
  revert t. induction os as [|o os IH]; intros t Hos Ht; [done|].
  simpl in Hos. apply andb_prop in Hos as [Ho Hos]. simpl.
  apply IH; [done|]. apply dense_apply_op; [|done]. by destruct (is_delete o).
Qed.

(** In a state reached without any deletion, [add_task] goes through. *)
Lemma add_task_without_deletes (os : list op) (u : Z) (d : str) (now : Z) :
  forallb (λ o, negb (is_delete o)) os = true →
  (add_task u d now (run os ∅)).1 = Ok (count_rows u (run os ∅) + 1).
Proof.
  intros Hos. rewrite add_task_fresh; [done|].
  pose proof (dense_run os ∅ Hos dense_empty) as Hd. unfold dense in Hd.
  apply eq_None_not_Some. rewrite Hd. lia.
Qed.

(** C1, at a state the program reaches: after two tasks of user 7 and the
    deletion of the first, one row is left, under id 2.  [add_task] computes
    1 + 1 = 2 again, the INSERT meets the primary key, IntegrityError is
    raised, and the table and the listing stay as they were; the user who
    sent the text of a new task is told that saving failed. *)
Theorem add_task_collides_after_delete :
  let t := run [Add 7 (lit "a") 10; Add 7 (lit "b") 20; Delete 1 7] ∅ in
  reachable t ∧ count_rows 7 t = 1 ∧
  t !! (7, 2) = Some (Row (lit "b") false 20) ∧
  add_task 7 (lit "c") 30 t = (Raise IntegrityError, t) ∧
  list_tasks 7 false (add_task 7 (lit "c") 30 t).2 = list_tasks 7 false t ∧
  process_new_task (Message 5 7 (Some (lit "c"))) (World t 30 ∅ [])
  = (Ok tt, World t 30 ∅ [SendMessage 5 SaveError]).
Proof.
  intros t. split; [by eexists|]. vm_compute. repeat split.
Qed.

(** C2, as far as it holds: a task stored under [(user_id, id)] stays
    there, as it is, through every operation that does not address that key,
    so no operation renumbers a task and deleting one task leaves the ids of
    the others alone; and while the task is stored, no [add_task] of its
    user returns its id. *)
Theorem ids_not_renumbered (o : op) (t : tasks) (k : Z * Z) (r : row) :
  t !! k = Some r →
  (k ≠ target o t → apply_op o t !! k = Some r) ∧
  (∀ i, assigns o t k.1 i → i ≠ k.2).
Proof.
  intros Hr. split.
  - intros Hk. by rewrite apply_op_other.
  - intros i Ha ->. destruct o as [u d now| |]; simpl in Ha; [|done..].
    destruct Ha as [-> Ha]. destruct k as [u i]; simpl in *.
    unfold add_task in Ha. pose proof (add_task_returns u d now t i) as Hi.
    destruct (t !! (u, count_rows u t + 1)) eqn:E; simpl in Ha; [done|].
    unfold add_task in Hi. rewrite E in Hi. simpl in Hi.
    rewrite (Hi Ha) in Hr. congruence.
Qed.

Lemma ids_not_renumbered_witness :
  apply_op (Delete 2 7)
    (run [Add 7 (lit "a") 10; Add 7 (lit "b") 20; Add 7 (lit "c") 30] ∅)
    !! (7, 3)
  = Some (Row (lit "c") false 30).
Proof.
  refine (proj1 (ids_not_renumbered (Delete 2 7) _ (7, 3) _ _) _).
  - vm_compute. reflexivity.
  - simpl. congruence.
Defined.

(** C2 as it is worded fails: user 7 adds a task and gets id 1, deletes it,
    and the next [add_task] returns 1 again. *)
Lemma id_assigned_again_after_delete :
  ¬ (∀ (t : tasks) (u i : Z) (d : str) (now : Z),
       reachable t → (delete_task i u t).1 = 1 →
       (add_task u d now (delete_task i u t).2).1 ≠ Ok i).
Proof.
  intros H.
  apply (H (run [Add 7 (lit "a") 10] ∅) 7 1 (lit "b") 20).
  - by eexists.
  - vm_compute. reflexivity.
  - vm_compute. reflexivity.
Qed.

Lemma delete_task_lookup (i u : Z) (t : tasks) :
  (delete_task i u t).2 !! (u, i) = None.
Proof.
  unfold delete_task. destruct (t !! (u, i)) eqn:E; simpl; [|done].
  apply lookup_delete_eq.
Qed.

(** A key that is free stays free as long as no [add_task] returns its id. *)
Lemma run_keeps_free (u i : Z) (os : list op) (t : tasks) :
  t !! (u, i) = None → never_assigns u i os t → run os t !! (u, i) = None.
Proof.
  revert t. induction os as [|o os IH]; intros t Hfree Hos; [done|].
  destruct Hos as [Ho Hos]. simpl. apply IH; [|done].
  destruct (decide ((u, i) = target o t)) as [Hk|Hk];
    [|by rewrite apply_op_other].
  destruct o as [u' d now| |]; simpl in *.
  - injection Hk as <- ->. destruct Ho. split; [done|].
    by rewrite add_task_fresh.
  - injection Hk as <- <-. unfold mark_done, update_done. by rewrite Hfree.
  - injection Hk as <- <-. unfold delete_task. by rewrite Hfree.
Qed.

(** C4, as far as it holds: after [delete_task i u], whatever operations
    follow, [list_tasks u True] has no entry with id [i] as long as no
    [add_task] for [u] has returned [i]. *)
Theorem deleted_id_stays_away (t : tasks) (u i : Z) (os : list op) :
  never_assigns u i os (delete_task i u t).2 →
  Forall (λ x : task, x.1 ≠ i)
    (list_tasks u true (run os (delete_task i u t).2)).
Proof.
  intros Hos. apply Forall_forall. intros x Hx Hi.
  apply elem_of_list_tasks in Hx as [Hx _]. rewrite Hi in Hx.
  rewrite run_keeps_free in Hx; [done| |done]. apply delete_task_lookup.
Qed.

Lemma deleted_id_stays_away_witness :
  Forall (λ x : task, x.1 ≠ 1)
    (list_tasks 7 true
       (run [MarkDone 2 7; Add 8 (lit "x") 40; Add 7 (lit "c") 50; Delete 3 7]
          (delete_task 1 7
             (run [Add 7 (lit "a") 10; Add 7 (lit "b") 20; Add 7 (lit "e") 30]
                ∅)).2)).
Proof.
  apply deleted_id_stays_away. simpl. repeat split; try tauto.
  - intros [? _]. lia.
  - intros [_ H]. vm_compute in H. discriminate H.
Defined.

(** C4 as it is worded fails: user 7 adds a task (id 1) and deletes it; the
    next [add_task] returns 1 again, and the listing shows id 1. *)
Lemma deleted_id_listed_again :
  ¬ (∀ (t : tasks) (u i : Z) (os : list op),
       reachable t → (delete_task i u t).1 = 1 →
       Forall (λ x : task, x.1 ≠ i)
         (list_tasks u true (run os (delete_task i u t).2))).
Proof.
  intros H.
  specialize (H (run [Add 7 (lit "a") 10] ∅) 7 1 [Add 7 (lit "b") 20]).
  assert (Forall (λ x : task, x.1 ≠ 1) [(1, Row (lit "b") false 20)]) as HF.
  { apply H; [by eexists|]. vm_compute. reflexivity. }
  inversion HF as [|?? Hx _]. by apply Hx.
Qed.

(** ** The count [mark_done] returns *)

(** [mark_done] returns 0 exactly when no row with that id and that user is
    still open: the row is missing, or it is done already. *)
Lemma mark_done_zero (i u : Z) (t : tasks) :
  (mark_done i u t).1 = 0 ↔ ∀ r, t !! (u, i) = Some r → done r = true.
Proof.
  unfold mark_done, update_done, CLIENT_FOUND_ROWS.
  destruct (t !! (u, i)) as [r|]; [|by split].
  destruct (done r) eqn:Hd; simpl; split; try done.
  - intros _ r' [= <-]. done.
  - intros H. specialize (H r eq_refl). congruence.
Qed.

(** A task of another user, or none at all: 0, and nothing changes. *)
Lemma mark_done_not_found (i u : Z) (t : tasks) :
  t !! (u, i) = None → mark_done i u t = (0, t).
Proof. intros H. unfold mark_done, update_done. by rewrite H. Qed.

(** With CLIENT_FOUND_ROWS the count would say whether the row exists. *)
Lemma update_done_found_rows (i u : Z) (t : tasks) :
  (update_done true i u t).1 = 0 ↔ t !! (u, i) = None.
Proof.
  unfold update_done. destruct (t !! (u, i)) as [r|]; [|done].
  destruct (done r); simpl; split; done.
Qed.

(** C3, at a state the program reaches: user 7 adds a task and marks it
    done.  The row with id 1 and user 7 is stored, and yet a second
    [mark_done 1 7] returns 0, and [/done 1] is answered with the text for a
    task that is not found or not the user's. *)
Theorem mark_done_again_returns_zero :
  let t := run [Add 7 (lit "a") 10; MarkDone 1 7] ∅ in
  reachable t ∧
  t !! (7, 1) = Some (Row (lit "a") true 10) ∧
  mark_done 1 7 t = (0, t) ∧
  handle_done_cmd int_ascii (Message 5 7 (Some (lit "/done 1")))
    (World t 0 ∅ [])
  = (Ok tt, World t 0 ∅ [SendMessage 5 NotFound]).
Proof.
  intros t. split; [by eexists|]. vm_compute. by split_and!.
Qed.

(** ** The handlers *)

(** C7: the next-step handler on a text that is empty or all whitespace
    (or missing).  The chat was awaiting the description; the message goes
    to [process_new_task], which returns without touching the table, so
    every listing is what it was; the one message sent is the empty-text
    error, and the chat is idle again. *)
Theorem blank_text_creates_nothing (m : message) (w : world) :
  Forall (λ c, isspace c = true) (or_empty (text m)) →
  chat_state (chat_id m) w = AwaitingDescription →
  let w' := World (db w) (clock w) (awaiting w ∖ {[chat_id m]})
              (sent w ++ [SendMessage (chat_id m) EmptyText]) in
  process_new_task m w
    = (Ok tt, World (db w) (clock w) (awaiting w)
                (sent w ++ [SendMessage (chat_id m) EmptyText])) ∧
  notify_next_handlers m w = (Ok true, w') ∧
  (∀ u inc, list_tasks u inc (db w') = list_tasks u inc (db w)) ∧
  chat_state (chat_id m) w' = Idle.
Proof.
  intros Hblank Hstate w'. apply strip_nil in Hblank.
  unfold chat_state in Hstate. destruct (decide _) as [Hin|]; [|done].
  split_and!.
  - unfold process_new_task. by rewrite Hblank.
  - unfold notify_next_handlers. rewrite decide_True by done.
    unfold process_new_task. by rewrite Hblank.
  - done.
  - unfold chat_state, w'. simpl. rewrite decide_False; [done|].
    rewrite elem_of_difference, elem_of_singleton. tauto.
Qed.

Lemma blank_text_creates_nothing_witness :
  notify_next_handlers (Message 5 7 (Some (lit "   ")))
    (World (run [Add 7 (lit "a") 10] ∅) 20 {[5]} [SendMessage 5 AskText])
  = (Ok true,
     World (run [Add 7 (lit "a") 10] ∅) 20 ({[5]} ∖ {[5]})
       [SendMessage 5 AskText; SendMessage 5 EmptyText]).
Proof.
  refine (proj1 (proj2 (blank_text_creates_nothing
    (Message 5 7 (Some (lit "   ")))
    (World (run [Add 7 (lit "a") 10] ∅) 20 {[5]} [SendMessage 5 AskText])
    _ _))).
  - simpl. repeat constructor.
  - vm_compute. reflexivity.
Defined.

(** C10: a message without text is handled like one with empty text.
    [process_new_task] returns (nothing is raised), the table is the same,
    and the empty-text error is sent. *)
Theorem process_new_task_no_text (chat user : Z) (w : world) :
  process_new_task (Message chat user None) w
    = process_new_task (Message chat user (Some [])) w ∧
  process_new_task (Message chat user None) w
    = (Ok tt, World (db w) (clock w) (awaiting w)
                (sent w ++ [SendMessage chat EmptyText])).
Proof. done. Qed.

Section RuntimeProperties.

Variable int_of_str : str → option Z.

(** C9: a callback payload that is neither [done:<integer>] nor
    [del:<integer>].  The handler returns, the table is the same, and the one
    thing sent is an answer to the callback: the server-error notice when
    the payload starts with one of the two prefixes (what follows is then no
    integer), and the unknown-command notice otherwise. *)
Theorem handle_callback_malformed (call : callback) (w : world) :
  ¬ is_payload int_of_str (lit "done:") (or_empty (data call)) →
  ¬ is_payload int_of_str (lit "del:") (or_empty (data call)) →
  handle_callback int_of_str call w
  = (Ok tt,
     World (db w) (clock w) (awaiting w)
       (sent w ++
        [AnswerCallbackQuery (call_id call)
           (if startswith (or_empty (data call)) (lit "done:")
               || startswith (or_empty (data call)) (lit "del:")
            then CbServerError else CbUnknown)])).
Proof.
  intros Hdone Hdel. unfold handle_callback.
  destruct (startswith _ (lit "done:")) eqn:E1.
  - apply startswith_inv in E1 as [rest E1]. rewrite E1.
    destruct (int_of_str rest) as [n|] eqn:En.
    { destruct Hdone. by exists rest, n. }
    change (lit "done:" ++ rest) with (100 :: 111 :: 110 :: 101 :: 58 :: rest)%N.
    unfold try_except, mbind, M_bind, item, int. simpl. by rewrite En.
  - destruct (startswith _ (lit "del:")) eqn:E2; [|done].
    apply startswith_inv in E2 as [rest E2]. rewrite E2.
    destruct (int_of_str rest) as [n|] eqn:En.
    { destruct Hdel. by exists rest, n. }
    change (lit "del:" ++ rest) with (100 :: 101 :: 108 :: 58 :: rest)%N.
    unfold try_except, mbind, M_bind, item, int. simpl. by rewrite En.
Qed.

End RuntimeProperties.

Lemma handle_callback_malformed_witness :
  handle_callback int_ascii (Callback 1 7 5 9 (Some (lit "done:abc")))
    (World (run [Add 7 (lit "a") 10] ∅) 20 ∅ [])
  = (Ok tt,
     World (run [Add 7 (lit "a") 10] ∅) 20 ∅
       [AnswerCallbackQuery 1 CbServerError]).
Proof.
  apply (handle_callback_malformed int_ascii
           (Callback 1 7 5 9 (Some (lit "done:abc")))
           (World (run [Add 7 (lit "a") 10] ∅) 20 ∅ [])).
  - intros (rest & n & E & Hn). simpl in E. injection E as <-.
    vm_compute in Hn. discriminate Hn.
  - intros (rest & n & E & _). simpl in E. discriminate E.
Defined.

(** * Further properties of the table functions *)

Lemma select_tasks_other (o : op) (u : Z) (inc : bool) (t : tasks) :
  op_user o ≠ u → select_tasks u inc (apply_op o t) = select_tasks u inc t.
Proof.
  intros Hu. unfold select_tasks.
  destruct o as [u' d now|i u'|i u']; simpl in Hu;
    unfold apply_op, add_task, mark_done, update_done, delete_task.
  - destruct (t !! _); simpl; [done|].
    destruct inc; (rewrite map_filter_insert_not; [done|]);
      intros y; simpl; tauto.
  - destruct (t !! _) as [r|]; simpl; [|done].
    destruct (done r); simpl; [done|].
    destruct inc; (rewrite map_filter_insert_not; [done|]);
      intros y; simpl; tauto.
  - destruct (t !! _); simpl; [|done].
    destruct inc; (rewrite map_filter_delete_not; [done|]);
      intros y _; simpl; tauto.
Qed.

Lemma count_rows_other (o : op) (u : Z) (t : tasks) :
  op_user o ≠ u → count_rows u (apply_op o t) = count_rows u t.
Proof.
  intros Hu. unfold count_rows.
  destruct o as [u' d now|i u'|i u']; simpl in Hu;
    unfold apply_op, add_task, mark_done, update_done, delete_task.
  - destruct (t !! _); simpl; [done|].
    rewrite map_filter_insert_not; [done|]. intros y; simpl; tauto.
  - destruct (t !! _) as [r|]; simpl; [|done].
    destruct (done r); simpl; [done|].
    rewrite map_filter_insert_not; [done|]. intros y; simpl; tauto.
  - destruct (t !! _); simpl; [|done].
    rewrite map_filter_delete_not; [done|]. intros y _; simpl; tauto.
Qed.

(** X1: the users do not see each other.  What one user adds, marks or
    deletes changes neither the listing of another user, in either mode and
    down to the order, nor the number of rows [add_task] will count for
    that other user. *)
Theorem other_users_unaffected (o : op) (u : Z) (inc : bool) (t : tasks) :
  op_user o ≠ u →
  list_tasks u inc (apply_op o t) = list_tasks u inc t ∧
  count_rows u (apply_op o t) = count_rows u t.
Proof.
  intros Hu. split.
  - unfold list_tasks. by rewrite select_tasks_other.
  - by apply count_rows_other.
Qed.

Lemma other_users_unaffected_witness :
  list_tasks 8 true
    (apply_op (Delete 1 7) (run [Add 7 (lit "a") 10; Add 8 (lit "b") 20] ∅))
  = list_tasks 8 true (run [Add 7 (lit "a") 10; Add 8 (lit "b") 20] ∅).
Proof.
  refine (proj1 (other_users_unaffected (Delete 1 7) 8 true _ _)).
  simpl. lia.
Defined.

(** X2: the number [add_task] counts is the number of tasks
    [list_tasks] shows with [include_done], and the listing without it is
    never longer. *)
Theorem count_rows_is_listing_length (u : Z) (t : tasks) :
  count_rows u t = Z.of_nat (length (list_tasks u true t)) ∧
  (length (list_tasks u false t) ≤ length (list_tasks u true t))%nat.
Proof.
  split.
  - rewrite list_tasks_perm. unfold select_tasks, count_rows.
    by rewrite length_fmap, length_map_to_list.
  - apply submseteq_length, NoDup_submseteq; [apply list_tasks_NoDup|].
    intros x. rewrite !elem_of_list_tasks. intros [? _]. auto.
Qed.

(** X3: for any number of tasks, the listing is ordered by creation time,
    newest first, and no id occurs in it twice. *)
Theorem list_tasks_sorted_distinct (u : Z) (inc : bool) (t : tasks) :
  StronglySorted newer (list_tasks u inc t) ∧ NoDup (list_tasks u inc t).*1.
Proof.
  split; [apply list_tasks_sorted|].
  apply NoDup_fmap_2_strong; [|apply list_tasks_NoDup].
  intros [i r] [i' r'] H H' E. simpl in E. subst i'.
  apply elem_of_list_tasks in H as [H _], H' as [H' _]. simpl in *.
  congruence.
Qed.

(** X4: deleting the task that [add_task] has just returned gives back the
    table as it was before the two calls, and reports one row. *)
Theorem delete_undoes_add (u : Z) (d : str) (now : Z) (t : tasks) (i : Z) :
  (add_task u d now t).1 = Ok i →
  delete_task i u (add_task u d now t).2 = (1, t).
Proof.
  unfold add_task. destruct (t !! (u, count_rows u t + 1)) eqn:E; simpl;
    [done|]. intros [= <-]. unfold delete_task.
  by rewrite lookup_insert_eq, delete_insert_id.
Qed.

Lemma delete_undoes_add_witness :
  delete_task 2 7
    (add_task 7 (lit "b") 20 (run [Add 7 (lit "a") 10] ∅)).2
  = (1, run [Add 7 (lit "a") 10] ∅).
Proof. apply delete_undoes_add. vm_compute. reflexivity. Defined.

(** X5: a second [delete_task] of the same task finds nothing: it returns
    0 and leaves the table as the first one left it. *)
Theorem delete_task_twice (i u : Z) (t : tasks) :
  delete_task i u (delete_task i u t).2 = (0, (delete_task i u t).2).
Proof.
  unfold delete_task at 1. by rewrite delete_task_lookup.
Qed.

(** X6: [mark_done] a second time changes nothing and returns 0, whatever
    the first call found. *)
Theorem mark_done_twice (i u : Z) (t : tasks) :
  mark_done i u (mark_done i u t).2 = (0, (mark_done i u t).2).
Proof.
  unfold mark_done, update_done, CLIENT_FOUND_ROWS.
  destruct (t !! (u, i)) as [r|] eqn:E; simpl; [|by rewrite E].
  destruct (done r) eqn:Hd; simpl.
  - by rewrite E, Hd.
  - by rewrite lookup_insert_eq.
Qed.

(** X7: how the count of a user's rows moves.  A successful [add_task]
    raises it by one and a failed one leaves it; [mark_done] never changes
    it; [delete_task] lowers it by the number it returns. *)
Theorem count_rows_step (u i : Z) (d : str) (now : Z) (t : tasks) :
  count_rows u (add_task u d now t).2
    = count_rows u t
      + match (add_task u d now t).1 with Ok _ => 1 | Raise _ => 0 end ∧
  count_rows u (mark_done i u t).2 = count_rows u t ∧
  count_rows u (delete_task i u t).2
    = count_rows u t - (delete_task i u t).1.
Proof.
  split_and!.
  - unfold add_task. destruct (t !! _) eqn:E; simpl; [lia|].
    by apply count_rows_insert_fresh.
  - unfold mark_done, update_done. destruct (t !! _) as [r|] eqn:E; [|done].
    destruct (done r); simpl; [done|].
    by apply (count_rows_insert_same _ _ _ _ r).
  - unfold delete_task. destruct (t !! (u, i)) as [r|] eqn:E; simpl; [|lia].
    unfold count_rows. rewrite map_filter_delete.
    set (m := filter (λ kr : Z * Z * row, kr.1.1 = u) t).
    assert (m !! (u, i) = Some r) as Hf by (by apply map_lookup_filter_Some).
    assert (size m = S (size (delete (u, i) m))) as Hs.
    { rewrite <-(insert_delete_id m (u, i) r Hf) at 1.
      apply map_size_insert_None, lookup_delete_eq. }
    lia.
Qed.

(** X8: a task added at a time later than all the tasks the user has is
    the first entry of the next listing, in either mode. *)
Theorem newest_task_listed_first
    (u : Z) (d : str) (now : Z) (t : tasks) (inc : bool) (i : Z) :
  (add_task u d now t).1 = Ok i →
  Forall (λ x : task, created_at x.2 < now) (list_tasks u true t) →
  head (list_tasks u inc (add_task u d now t).2) = Some (i, Row d false now).
Proof.
  intros Hadd Hold. pose proof (add_task_returns _ _ _ _ _ Hadd) as ->.
  assert (t !! (u, count_rows u t + 1) = None) as Hfree.
  { unfold add_task in Hadd. by destruct (t !! _). }
  rewrite add_task_fresh by done. simpl.
  pose proof (list_tasks_insert_fresh u (count_rows u t + 1)
                (Row d false now) inc t Hfree (or_intror eq_refl)) as Hp.
  pose proof (list_tasks_sorted u inc
                (<[(u, count_rows u t + 1) := Row d false now]> t)) as Hs.
  destruct (list_tasks u inc (<[_ := _]> t)) as [|hd tl].
  { by apply Permutation_nil_cons in Hp. }
  simpl. f_equal.
  assert (hd ∈ hd :: tl) as H by left. rewrite Hp in H.
  apply elem_of_cons in H as [?|Hhd]; [done|exfalso].
  assert (created_at hd.2 < now) as Hlt.
  { rewrite Forall_forall in Hold. apply Hold.
    apply elem_of_list_tasks in Hhd as [? _]. apply elem_of_list_tasks. auto. }
  assert ((count_rows u t + 1, Row d false now) ∈ hd :: tl) as Hnew
    by (rewrite Hp; left).
  apply elem_of_cons in Hnew as [<-|Hnew]; [simpl in Hlt; lia|].
  apply StronglySorted_inv in Hs as [_ Hs].
  rewrite Forall_forall in Hs. specialize (Hs _ Hnew).
  unfold newer in Hs. simpl in *. lia.
Qed.

Lemma newest_task_listed_first_witness :
  head (list_tasks 7 false
          (add_task 7 (lit "b") 20 (run [Add 7 (lit "a") 10] ∅)).2)
  = Some (2, Row (lit "b") false 20).
Proof.
  apply newest_task_listed_first.
  - vm_compute. reflexivity.
  - vm_compute. repeat constructor.
Defined.

Lemma positive_ids_apply_op (o : op) (t : tasks) :
  (∀ u i, is_Some (t !! (u, i)) → 1 ≤ i) →
  ∀ u i, is_Some (apply_op o t !! (u, i)) → 1 ≤ i.
Proof.
  intros Ht u i. destruct (decide ((u, i) = target o t)) as [Hk|Hk];
    [|rewrite apply_op_other by done; apply Ht].
  destruct o as [u' d now|j u'|j u']; simpl in Hk.
  - injection Hk as -> ->. intros _. unfold count_rows. lia.
  - injection Hk as -> ->. simpl. intros H. apply (Ht u' j).
    apply elem_of_dom. apply elem_of_dom in H. by rewrite mark_done_dom in H.
  - injection Hk as -> ->. simpl. rewrite delete_task_lookup. by intros [? ?].
Qed.

Lemma positive_ids_run (os : list op) (t : tasks) :
  (∀ u i, is_Some (t !! (u, i)) → 1 ≤ i) →
  ∀ u i, is_Some (run os t !! (u, i)) → 1 ≤ i.
Proof.
  revert t. induction os as [|o os IH]; intros t Ht; [done|]. simpl.
  apply IH. by apply positive_ids_apply_op.
Qed.

(** X9: every id in a table the program has built from an empty one is
    at least 1. *)
Theorem reachable_ids_positive (t : tasks) (u i : Z) (r : row) :
  reachable t → t !! (u, i) = Some r → 1 ≤ i.
Proof.
  intros [os ->] Hr. apply (positive_ids_run os ∅) with u; [|by eauto].
  intros u' i'. rewrite lookup_empty. by intros [? ?].
Qed.

Lemma reachable_ids_positive_witness : 1 ≤ 2.
Proof.
  apply (reachable_ids_positive
           (run [Add 7 (lit "a") 10; Add 7 (lit "b") 20] ∅) 7 2
           (Row (lit "b") false 20)).
  - by eexists.
  - vm_compute. reflexivity.
Defined.

(** X10: as long as nothing has been deleted, the ids of every user are
    exactly 1, ..., n for the n tasks the user has, and [add_task] returns
    n + 1. *)
Theorem no_delete_no_collision (os : list op) (u : Z) (d : str) (now : Z) :
  forallb (λ o, negb (is_delete o)) os = true →
  dense (run os ∅) ∧
  (add_task u d now (run os ∅)).1 = Ok (count_rows u (run os ∅) + 1).
Proof.
  intros Hos. split.
  - by apply dense_run, dense_empty.
  - by apply add_task_without_deletes.
Qed.

Lemma no_delete_no_collision_witness :
  (add_task 7 (lit "c") 30
     (run [Add 7 (lit "a") 10; MarkDone 1 7; Add 7 (lit "b") 20] ∅)).1
  = Ok (count_rows 7
          (run [Add 7 (lit "a") 10; MarkDone 1 7; Add 7 (lit "b") 20] ∅) + 1).
Proof.
  refine (proj2 (no_delete_no_collision _ 7 (lit "c") 30 _)). reflexivity.
Defined.

(** X11: marking an open task of the user returns 1; afterwards the task
    is no longer in the default listing and is in the one with
    [include_done], done, with the description and the creation time it
    had. *)
Theorem mark_done_moves_task (i u : Z) (r : row) (t : tasks) :
  t !! (u, i) = Some r → done r = false →
  (mark_done i u t).1 = 1 ∧
  Forall (λ x : task, x.1 ≠ i) (list_tasks u false (mark_done i u t).2) ∧
  (i, Row (description r) true (created_at r))
    ∈ list_tasks u true (mark_done i u t).2.
Proof.
  intros Hr Hd. unfold mark_done, update_done. rewrite Hr, Hd. simpl.
  split_and!; [done| |].
  - apply Forall_forall. intros [j r'] Hx E. simpl in E. subst j.
    apply elem_of_list_tasks in Hx as [Hx [?|Hx']]; [done|]. simpl in *.
    rewrite lookup_insert_eq in Hx. by injection Hx as <-.
  - apply elem_of_list_tasks. simpl. rewrite lookup_insert_eq. auto.
Qed.

Lemma mark_done_moves_task_witness :
  (mark_done 1 7 (run [Add 7 (lit "a") 10] ∅)).1 = 1.
Proof.
  refine (proj1 (mark_done_moves_task 1 7 (Row (lit "a") false 10) _ _ _)).
  - vm_compute. reflexivity.
  - reflexivity.
Defined.

(** * Further properties of the handlers *)

Lemma dropwhile_idemp {A} (p : A → bool) (l : list A) :
  dropwhile p (dropwhile p l) = dropwhile p l.
Proof.
  induction l as [|x l IH]; simpl; [done|].
  destruct (p x) eqn:Hx; [done|]. simpl. by rewrite Hx.
Qed.

Lemma dropwhile_head {A} (p : A → bool) (l : list A) (x : A) (l' : list A) :
  dropwhile p l = x :: l' → p x = false.
Proof.
  induction l as [|y l IH]; simpl; [done|].
  destruct (p y) eqn:Hy; [done|]. by intros [= <- _].
Qed.

Lemma dropwhile_snoc {A} (p : A → bool) (l : list A) (x : A) :
  p x = false → ∃ l', dropwhile p (l ++ [x]) = l' ++ [x].
Proof.
  intros Hx. induction l as [|y l IH]; simpl.
  - rewrite Hx. by exists [].
  - destruct (p y); [done|]. by exists (y :: l).
Qed.

Lemma rstrip_idemp (s : str) : rstrip (rstrip s) = rstrip s.
Proof.
  unfold rstrip, lstrip. by rewrite reverse_involutive, dropwhile_idemp.
Qed.

(** Stripping a stripped string changes nothing. *)
Lemma strip_idemp (s : str) : strip (strip s) = strip s.
Proof.
  unfold strip. destruct (lstrip s) as [|c s'] eqn:E; [done|].
  pose proof (dropwhile_head _ _ _ _ E) as Hc.
  assert (∃ z, rstrip (c :: s') = c :: z) as [z Hz].
  { unfold rstrip, lstrip. rewrite reverse_cons.
    destruct (dropwhile_snoc isspace (reverse s') c Hc) as [l' ->].
    rewrite reverse_snoc. by eexists. }
  rewrite Hz. unfold lstrip at 1. simpl. rewrite Hc.
  rewrite <-Hz. apply rstrip_idemp.
Qed.

Ltac run_m :=
  unfold mbind, M_bind, mret, M_ret, try_except, sql, sql_try,
    current_timestamp, send_message, answer_callback_query,
    edit_message_reply_markup, call_api, raise, item, int, split_text;
  simpl.

Lemma process_new_task_eq (m : message) (w : world) :
  process_new_task m w =
  match strip (or_empty (text m)) with
  | [] =>
      (Ok tt, World (db w) (clock w) (awaiting w)
                (sent w ++ [SendMessage (chat_id m) EmptyText]))
  | d =>
      let r := add_task (from_user m) d (clock w) (db w) in
      (Ok tt, World r.2 (clock w) (awaiting w)
                (sent w ++ [SendMessage (chat_id m)
                              match r.1 with
                              | Ok i => Saved i
                              | Raise _ => SaveError
                              end]))
  end.
Proof.
  unfold process_new_task. destruct (strip _) as [|c d]; [done|]. run_m.
  by destruct (add_task _ _ _ _) as [[j|e] t'].
Qed.

Lemma send_task_lines (chat : Z) (rows : list task) (w : world) :
  foldr (λ row k, send_message chat (TaskLine row) ;; k) (mret tt) rows w =
  (Ok tt, World (db w) (clock w) (awaiting w)
            (sent w ++ ((λ r, SendMessage chat (TaskLine r)) <$> rows))).
Proof.
  revert w. induction rows as [|r rows IH]; intros [t c a out]; simpl.
  - by rewrite app_nil_r.
  - unfold mbind, M_bind, send_message, call_api. simpl.
    rewrite IH. simpl. by rewrite <-app_assoc.
Qed.

Lemma handle_list_eq (m : message) (w : world) :
  handle_list m w =
  (Ok tt, World (db w) (clock w) (awaiting w)
            (sent w ++
             match list_tasks (from_user m) false (db w) with
             | [] => [SendMessage (chat_id m) NoTasks]
             | rows => (λ r, SendMessage (chat_id m) (TaskLine r)) <$> rows
             end)).
Proof.
  unfold handle_list, mbind at 1, M_bind at 1, sql. simpl.
  destruct (list_tasks _ _ _) as [|r0 rows0]; [done|].
  by rewrite send_task_lines.
Qed.

Section CallProperties.

Variable int_of_str : str → option Z.

Lemma handle_done_cmd_eq (m : message) (w : world) (s : str) :
  text m = Some s →
  handle_done_cmd int_of_str m w =
  match split s !! 1%nat with
  | None =>
      (Ok tt, World (db w) (clock w) (awaiting w)
                (sent w ++ [SendMessage (chat_id m) UsageDone]))
  | Some p =>
      match int_of_str p with
      | None =>
          (Ok tt, World (db w) (clock w) (awaiting w)
                    (sent w ++ [SendMessage (chat_id m) IdNotNumber]))
      | Some tid =>
          let r := mark_done tid (from_user m) (db w) in
          (Ok tt, World r.2 (clock w) (awaiting w)
                    (sent w ++ [SendMessage (chat_id m)
                                  (if truthy r.1 then MarkedDone tid
                                   else NotFound)]))
      end
  end.
Proof.
  intros Hs. unfold handle_done_cmd. run_m. rewrite Hs. simpl.
  destruct (split s !! 1%nat) as [p|]; [|done].
  destruct (int_of_str p) as [tid|]; [|done]. simpl.
  destruct (mark_done _ _ _) as [n t']. simpl. by destruct (truthy n).
Qed.

Lemma handle_delete_cmd_eq (m : message) (w : world) (s : str) :
  text m = Some s →
  handle_delete_cmd int_of_str m w =
  match split s !! 1%nat with
  | None =>
      (Ok tt, World (db w) (clock w) (awaiting w)
                (sent w ++ [SendMessage (chat_id m) UsageDelete]))
  | Some p =>
      match int_of_str p with
      | None =>
          (Ok tt, World (db w) (clock w) (awaiting w)
                    (sent w ++ [SendMessage (chat_id m) IdNotNumber]))
      | Some tid =>
          let r := delete_task tid (from_user m) (db w) in
          (Ok tt, World r.2 (clock w) (awaiting w)
                    (sent w ++ [SendMessage (chat_id m)
                                  (if truthy r.1 then Deleted tid
                                   else NotFound)]))
      end
  end.
Proof.
  intros Hs. unfold handle_delete_cmd. run_m. rewrite Hs. simpl.
  destruct (split s !! 1%nat) as [p|]; [|done].
  destruct (int_of_str p) as [tid|]; [|done]. simpl.
  destruct (delete_task _ _ _) as [n t']. simpl. by destruct (truthy n).
Qed.

Lemma handle_callback_done_eq (call : callback) (w : world) (rest : str) :
  or_empty (data call) = lit "done:" ++ rest →
  handle_callback int_of_str call w =
  match int_of_str rest with
  | None =>
      (Ok tt, World (db w) (clock w) (awaiting w)
                (sent w ++ [AnswerCallbackQuery (call_id call) CbServerError]))
  | Some tid =>
      let r := mark_done tid (call_from call) (db w) in
      (Ok tt, World r.2 (clock w) (awaiting w)
                (sent w ++
                 if truthy r.1
                 then [AnswerCallbackQuery (call_id call) CbMarked;
                       EditMessageReplyMarkup (call_chat call)
                         (call_message call);
                       SendMessage (call_chat call) (CbMarkedMsg tid)]
                 else [AnswerCallbackQuery (call_id call) CbNotFound]))
  end.
Proof.
  intros E. unfold handle_callback. rewrite E.
  change (lit "done:" ++ rest) with (100 :: 111 :: 110 :: 101 :: 58 :: rest)%N.
  run_m. destruct (int_of_str rest) as [tid|]; [|done]. simpl.
  destruct (mark_done _ _ _) as [n t']. simpl.
  destruct (truthy n); [|done]. simpl. by rewrite <-!app_assoc.
Qed.

Lemma handle_callback_del_eq (call : callback) (w : world) (rest : str) :
  or_empty (data call) = lit "del:" ++ rest →
  handle_callback int_of_str call w =
  match int_of_str rest with
  | None =>
      (Ok tt, World (db w) (clock w) (awaiting w)
                (sent w ++ [AnswerCallbackQuery (call_id call) CbServerError]))
  | Some tid =>
      let r := delete_task tid (call_from call) (db w) in
      (Ok tt, World r.2 (clock w) (awaiting w)
                (sent w ++
                 if truthy r.1
                 then [AnswerCallbackQuery (call_id call) CbDeleted;
                       EditMessageReplyMarkup (call_chat call)
                         (call_message call);
                       SendMessage (call_chat call) (Deleted tid)]
                 else [AnswerCallbackQuery (call_id call) CbNotFound]))
  end.
Proof.
  intros E. unfold handle_callback. rewrite E.
  change (lit "del:" ++ rest) with (100 :: 101 :: 108 :: 58 :: rest)%N.
  run_m. destruct (int_of_str rest) as [tid|]; [|done]. simpl.
  destruct (delete_task _ _ _) as [n t']. simpl.
  destruct (truthy n); [|done]. simpl. by rewrite <-!app_assoc.
Qed.

Lemma handle_callback_other_eq (call : callback) (w : world) :
  startswith (or_empty (data call)) (lit "done:") = false →
  startswith (or_empty (data call)) (lit "del:") = false →
  handle_callback int_of_str call w =
  (Ok tt, World (db w) (clock w) (awaiting w)
            (sent w ++ [AnswerCallbackQuery (call_id call) CbUnknown])).
Proof. intros E1 E2. unfold handle_callback. by rewrite E1, E2. Qed.

(** What a call does to the table: nothing, or one operation for the
    calling user; a description it adds is stripped and not empty. *)
Lemma call_handler_db (e : event) (w : world) :
  db (call_handler int_of_str e w).2 = db w ∨
  ∃ o, db (call_handler int_of_str e w).2 = apply_op o (db w) ∧
       op_user o = event_user e ∧
       ∀ u d now, o = Add u d now → d ≠ [] ∧ strip d = d.
Proof.
  destruct e as [m|m|m|m|m|c]; simpl.
  - by left.
  - rewrite process_new_task_eq.
    destruct (strip (or_empty (text m))) as [|ch d] eqn:E; [by left|].
    right. exists (Add (from_user m) (ch :: d) (clock w)).
    split_and!; [done..|]. intros u d' now [= _ <- _]. split; [done|].
    rewrite <-E. apply strip_idemp.
  - rewrite handle_list_eq. by left.
  - destruct (text m) as [s|] eqn:Hs.
    + rewrite (handle_done_cmd_eq _ _ _ Hs).
      destruct (split s !! 1%nat) as [p|]; [|by left].
      destruct (int_of_str p) as [tid|]; [|by left].
      right. exists (MarkDone tid (from_user m)). by split_and!.
    + left. unfold handle_done_cmd. run_m. by rewrite Hs.
  - destruct (text m) as [s|] eqn:Hs.
    + rewrite (handle_delete_cmd_eq _ _ _ Hs).
      destruct (split s !! 1%nat) as [p|]; [|by left].
      destruct (int_of_str p) as [tid|]; [|by left].
      right. exists (Delete tid (from_user m)). by split_and!.
    + left. unfold handle_delete_cmd. run_m. by rewrite Hs.
  - destruct (startswith (or_empty (data c)) (lit "done:")) eqn:E1.
    { apply startswith_inv in E1 as [rest E1].
      rewrite (handle_callback_done_eq _ _ _ E1).
      destruct (int_of_str rest) as [tid|]; [|by left].
      right. exists (MarkDone tid (call_from c)). by split_and!. }
    destruct (startswith (or_empty (data c)) (lit "del:")) eqn:E2.
    { apply startswith_inv in E2 as [rest E2].
      rewrite (handle_callback_del_eq _ _ _ E2).
      destruct (int_of_str rest) as [tid|]; [|by left].
      right. exists (Delete tid (call_from c)). by split_and!. }
    rewrite handle_callback_other_eq by done. by left.
Qed.

End CallProperties.

Lemma apply_op_clean (o : op) (t : tasks) :
  (∀ u d now, o = Add u d now → d ≠ [] ∧ strip d = d) →
  clean t → clean (apply_op o t).
Proof.
  intros Ho Ht k r. destruct o as [u d now|i u|i u]; simpl;
    unfold add_task, mark_done, update_done, delete_task.
  - destruct (t !! (u, count_rows u t + 1)); simpl; [apply Ht|].
    intros [[_ <-]|[_ H]]%lookup_insert_Some; [|by eapply Ht].
    simpl. by eapply Ho.
  - destruct (t !! (u, i)) as [r0|] eqn:E; simpl; [|apply Ht].
    destruct (done r0); simpl; [apply Ht|].
    intros [[_ <-]|[_ H]]%lookup_insert_Some; [|by eapply Ht].
    simpl. by eapply Ht.
  - destruct (t !! (u, i)); simpl; [|apply Ht].
    intros [_ H]%lookup_delete_Some. by eapply Ht.
Qed.

Lemma apply_op_other_user (o : op) (t : tasks) (k : Z * Z) :
  k.1 ≠ op_user o → apply_op o t !! k = t !! k.
Proof.
  intros Hk. apply apply_op_other. intros ->. by destruct o.
Qed.

(** X15: /new and then a text.  When the text, stripped, is not empty
    and the id the user is due is free, the task is stored under that id
    for the sender of the text, not done, with the stripped text and the
    server's time; the bot has asked for the text and confirmed the id, and
    the chat is idle again. *)
Theorem new_task_flow (m0 m1 : message) (w : world) (d : str) :
  chat_id m1 = chat_id m0 →
  strip (or_empty (text m1)) = d → d ≠ [] →
  db w !! (from_user m1, count_rows (from_user m1) (db w) + 1) = None →
  let i := count_rows (from_user m1) (db w) + 1 in
  let w' := ((handle_new m0 ;; notify_next_handlers m1) w).2 in
  ((handle_new m0 ;; notify_next_handlers m1) w).1 = Ok true ∧
  db w' = <[(from_user m1, i) := Row d false (clock w)]> (db w) ∧
  sent w' = sent w ++ [SendMessage (chat_id m0) AskText;
                       SendMessage (chat_id m0) (Saved i)] ∧
  chat_state (chat_id m0) w' = Idle.
Proof.
  intros Hc Hd Hne Hfree i w'. subst w'.
  unfold handle_new, notify_next_handlers.
  unfold mbind, M_bind, send_message, call_api, register_next_step_handler.
  simpl. rewrite decide_True by (by apply elem_of_union_l, elem_of_singleton).
  rewrite process_new_task_eq. simpl. rewrite Hd.
  destruct d as [|ch d]; [done|].
  rewrite add_task_fresh by done. unfold mret, M_ret. simpl. rewrite Hc.
  split_and!; [done|done|by rewrite <-app_assoc|].
  unfold chat_state. simpl. rewrite decide_False; [done|].
  rewrite elem_of_difference, elem_of_singleton. tauto.
Qed.

Lemma new_task_flow_witness :
  db ((handle_new (Message 5 7 (Some (lit "/new"))) ;;
       notify_next_handlers (Message 5 7 (Some (lit " milk "))))
        (World ∅ 100 ∅ [])).2
  = <[(7, count_rows 7 ∅ + 1) := Row (lit "milk") false 100]> ∅.
Proof.
  refine (proj1 (proj2 (new_task_flow
    (Message 5 7 (Some (lit "/new"))) (Message 5 7 (Some (lit " milk ")))
    (World ∅ 100 ∅ []) (lit "milk") _ _ _ _))).
  - reflexivity.
  - vm_compute. reflexivity.
  - discriminate.
  - reflexivity.
Defined.

(** X16: [/list] never changes the table.  It sends the no-tasks notice
    when the user has no open task, and otherwise one message for each open
    task, in the order of the listing. *)
Theorem handle_list_sends (m : message) (w : world) :
  (handle_list m w).1 = Ok tt ∧
  db (handle_list m w).2 = db w ∧
  sent (handle_list m w).2 =
    sent w ++
    match list_tasks (from_user m) false (db w) with
    | [] => [SendMessage (chat_id m) NoTasks]
    | rows => (λ r, SendMessage (chat_id m) (TaskLine r)) <$> rows
    end.
Proof. by rewrite handle_list_eq. Qed.

Section HandlerProperties.

Variable int_of_str : str → option Z.

(** X12: no handler lets an exception out.  Whatever the table, the
    payload or the text, each call returns; for [/done] and [/delete] the
    message must have a text, as every command has. *)
Theorem handlers_never_raise (e : event) (w : world) :
  has_text e → (call_handler int_of_str e w).1 = Ok tt.
Proof.
  intros He. destruct e as [m|m|m|m|m|c]; simpl in *.
  - done.
  - rewrite process_new_task_eq. by destruct (strip _).
  - by rewrite handle_list_eq.
  - destruct He as [s Hs]. rewrite (handle_done_cmd_eq _ _ _ _ Hs).
    destruct (split s !! 1%nat) as [p|]; [|done].
    by destruct (int_of_str p).
  - destruct He as [s Hs]. rewrite (handle_delete_cmd_eq _ _ _ _ Hs).
    destruct (split s !! 1%nat) as [p|]; [|done].
    by destruct (int_of_str p).
  - destruct (startswith (or_empty (data c)) (lit "done:")) eqn:E1.
    { apply startswith_inv in E1 as [rest E1].
      rewrite (handle_callback_done_eq _ _ _ _ E1).
      by destruct (int_of_str rest). }
    destruct (startswith (or_empty (data c)) (lit "del:")) eqn:E2.
    { apply startswith_inv in E2 as [rest E2].
      rewrite (handle_callback_del_eq _ _ _ _ E2).
      by destruct (int_of_str rest). }
    by rewrite handle_callback_other_eq.
Qed.

(** X13: through any calls of the handlers, no description in the table
    is empty and none has whitespace at its start or its end, provided that
    was so before (as in an empty table). *)
Theorem descriptions_stay_clean (es : list event) (w : world) :
  clean (db w) → clean (db (run_handlers int_of_str es w)).
Proof.
  revert w. induction es as [|e es IH]; intros w Hw; [done|]. simpl.
  apply IH. destruct (call_handler_db int_of_str e w) as [->|(o & -> & _ & Ho)];
    [done|]. by apply apply_op_clean.
Qed.

(** X14: calls made for other users leave the rows of user [u] as they
    are. *)
Theorem other_users_calls_harmless (es : list event) (w : world) (u i : Z) :
  Forall (λ e, event_user e ≠ u) es →
  db (run_handlers int_of_str es w) !! (u, i) = db w !! (u, i).
Proof.
  intros Hes. revert w. induction Hes as [|e es He _ IH]; intros w; [done|].
  simpl. rewrite IH.
  destruct (call_handler_db int_of_str e w) as [->|(o & -> & Hu & _)];
    [done|]. apply apply_op_other_user. simpl. congruence.
Qed.

(** X17: [/done] and [/delete] without a second word, or with one that
    is no integer, make no call to the table: it stays as it is, and the one
    message sent is the usage line or the id-must-be-a-number line. *)
Theorem malformed_command_changes_nothing (m : message) (w : world) (s : str) :
  text m = Some s →
  (∀ p, split s !! 1%nat = Some p → int_of_str p = None) →
  let r := match split s !! 1%nat with
           | Some _ => IdNotNumber
           | None => UsageDone
           end in
  let r' := match split s !! 1%nat with
            | Some _ => IdNotNumber
            | None => UsageDelete
            end in
  handle_done_cmd int_of_str m w
    = (Ok tt, World (db w) (clock w) (awaiting w)
                (sent w ++ [SendMessage (chat_id m) r])) ∧
  handle_delete_cmd int_of_str m w
    = (Ok tt, World (db w) (clock w) (awaiting w)
                (sent w ++ [SendMessage (chat_id m) r'])).
Proof.
  intros Hs Hbad. simpl.
  rewrite (handle_done_cmd_eq _ _ _ _ Hs), (handle_delete_cmd_eq _ _ _ _ Hs).
  destruct (split s !! 1%nat) as [p|]; [|done]. by rewrite (Hbad p eq_refl).
Qed.

End HandlerProperties.

Lemma malformed_command_changes_nothing_witness :
  handle_done_cmd int_ascii (Message 5 7 (Some (lit "/done x1")))
    (World (run [Add 7 (lit "a") 10] ∅) 20 ∅ [])
  = (Ok tt, World (run [Add 7 (lit "a") 10] ∅) 20 ∅
              [SendMessage 5 IdNotNumber]).
Proof.
  refine (proj1 (malformed_command_changes_nothing int_ascii
    (Message 5 7 (Some (lit "/done x1")))
    (World (run [Add 7 (lit "a") 10] ∅) 20 ∅ []) (lit "/done x1") _ _)).
  - reflexivity.
  - intros p Hp. vm_compute in Hp. injection Hp as <-. reflexivity.
Defined.

Lemma handlers_never_raise_witness :
  (call_handler int_ascii (OnDone (Message 5 7 (Some (lit "/done 1"))))
     (World ∅ 0 ∅ [])).1 = Ok tt.
Proof. apply handlers_never_raise. simpl. by eexists. Defined.

Lemma descriptions_stay_clean_witness :
  clean (db (run_handlers int_ascii
               [OnNew (Message 5 7 (Some (lit "/new")));
                OnNextStep (Message 5 7 (Some (lit "  milk ")))]
               (World ∅ 0 ∅ []))).
Proof.
  apply descriptions_stay_clean. intros k r. simpl.
  rewrite lookup_empty. discriminate.
Defined.

Lemma other_users_calls_harmless_witness :
  db (run_handlers int_ascii
        [OnCallback (Callback 1 8 5 9 (Some (lit "del:1")))]
        (World (run [Add 7 (lit "a") 10] ∅) 0 ∅ [])) !! (7, 1)
  = run [Add 7 (lit "a") 10] ∅ !! (7, 1).
Proof.
  apply (other_users_calls_harmless int_ascii
           [OnCallback (Callback 1 8 5 9 (Some (lit "del:1")))]
           (World (run [Add 7 (lit "a") 10] ∅) 0 ∅ []) 7 1).
  repeat constructor. simpl. lia.
Defined.

Section ButtonProperties.

Variable int_of_str : str → option Z.

(** X18: a button does to the table what the command does.  For the same
    user and the same id, the payload [done:<id>] leaves the table as
    [/done <id>] does, and [del:<id>] as [/delete <id>] does. *)
Theorem button_same_as_command
    (m : message) (c1 c2 : callback) (w : world) (s p rest : str) (n : Z) :
  text m = Some s → split s !! 1%nat = Some p → int_of_str p = Some n →
  int_of_str rest = Some n →
  data c1 = Some (lit "done:" ++ rest) → call_from c1 = from_user m →
  data c2 = Some (lit "del:" ++ rest) → call_from c2 = from_user m →
  db (handle_callback int_of_str c1 w).2
    = db (handle_done_cmd int_of_str m w).2 ∧
  db (handle_callback int_of_str c2 w).2
    = db (handle_delete_cmd int_of_str m w).2.
Proof.
  intros Hs Hp Hn Hrest Hd1 Hu1 Hd2 Hu2.
  rewrite (handle_done_cmd_eq _ _ _ _ Hs), (handle_delete_cmd_eq _ _ _ _ Hs).
  rewrite Hp, Hn.
  rewrite (handle_callback_done_eq _ c1 w rest) by (by rewrite Hd1).
  rewrite (handle_callback_del_eq _ c2 w rest) by (by rewrite Hd2).
  rewrite Hrest, Hu1, Hu2. done.
Qed.

(** X19: what [/delete <id>] and [/done <id>] answer.  [/delete] removes
    the user's task with that id and confirms, or, when the user has no
    such task, changes nothing and says that it was not found.  [/done]
    marks the task and confirms when the user has it and it is open; when
    the user has no such task, or it is done already, it changes nothing and
    says that it was not found. *)
Theorem command_outcome (m : message) (w : world) (s p : str) (tid : Z) :
  text m = Some s → split s !! 1%nat = Some p → int_of_str p = Some tid →
  let say t r :=
    (Ok tt, World t (clock w) (awaiting w)
              (sent w ++ [SendMessage (chat_id m) r])) in
  handle_delete_cmd int_of_str m w
    = match db w !! (from_user m, tid) with
      | Some _ => say (delete (from_user m, tid) (db w)) (Deleted tid)
      | None => say (db w) NotFound
      end ∧
  handle_done_cmd int_of_str m w
    = match db w !! (from_user m, tid) with
      | Some r =>
          if done r then say (db w) NotFound
          else say (<[(from_user m, tid) :=
                        Row (description r) true (created_at r)]> (db w))
                   (MarkedDone tid)
      | None => say (db w) NotFound
      end.
Proof.
  intros Hs Hp Hn. simpl.
  rewrite (handle_done_cmd_eq _ _ _ _ Hs), (handle_delete_cmd_eq _ _ _ _ Hs).
  rewrite Hp, Hn. unfold delete_task, mark_done, update_done. simpl.
  destruct (db w !! (from_user m, tid)) as [r|]; [|done].
  by destruct (done r).
Qed.

End ButtonProperties.

Lemma button_same_as_command_witness :
  db (handle_callback int_ascii (Callback 1 7 5 9 (Some (lit "done:1")))
        (World (run [Add 7 (lit "a") 10] ∅) 20 ∅ [])).2
  = db (handle_done_cmd int_ascii (Message 5 7 (Some (lit "/done 1")))
          (World (run [Add 7 (lit "a") 10] ∅) 20 ∅ [])).2.
Proof.
  refine (proj1 (button_same_as_command int_ascii
    (Message 5 7 (Some (lit "/done 1")))
    (Callback 1 7 5 9 (Some (lit "done:1")))
    (Callback 2 7 5 9 (Some (lit "del:1")))
    (World (run [Add 7 (lit "a") 10] ∅) 20 ∅ [])
    (lit "/done 1") (lit "1") (lit "1") 1 _ _ _ _ _ _ _ _)); reflexivity.
Defined.

Lemma command_outcome_witness :
  handle_delete_cmd int_ascii (Message 5 7 (Some (lit "/delete 1")))
    (World (run [Add 7 (lit "a") 10] ∅) 20 ∅ [])
  = (Ok tt, World (delete (7, 1) (run [Add 7 (lit "a") 10] ∅)) 20 ∅
              [SendMessage 5 (Deleted 1)]).
Proof.
  refine (proj1 (command_outcome int_ascii
    (Message 5 7 (Some (lit "/delete 1")))
    (World (run [Add 7 (lit "a") 10] ∅) 20 ∅ [])
    (lit "/delete 1") (lit "1") 1 _ _ _)); reflexivity.
Defined.

(** X20: the registration made by /new is used once.  After [handle_new]
    the chat awaits the description; the next message of the chat goes to
    the next-step handler, whatever its text; the one after that does not,
    as no message did before /new. *)
Theorem next_step_used_once (m0 m1 m2 : message) (w : world) :
  chat_id m1 = chat_id m0 → chat_id m2 = chat_id m0 →
  chat_state (chat_id m0) w = Idle →
  let w1 := (handle_new m0 w).2 in
  let w2 := (notify_next_handlers m1 w1).2 in
  chat_state (chat_id m0) w1 = AwaitingDescription ∧
  (notify_next_handlers m1 w1).1 = Ok true ∧
  notify_next_handlers m2 w2 = (Ok false, w2) ∧
  notify_next_handlers m2 w = (Ok false, w).
Proof.
  intros H1 H2 Hidle. simpl.
  assert (chat_id m0 ∉ awaiting w) as Hout.
  { unfold chat_state in Hidle. by destruct (decide (chat_id m0 ∈ awaiting w)). }
  assert (chat_id m0 ∈ awaiting (handle_new m0 w).2) as Hin.
  { simpl. by apply elem_of_union_l, elem_of_singleton. }
  split_and!.
  - unfold chat_state. by rewrite decide_True.
  - unfold notify_next_handlers. rewrite H1, decide_True by done.
    unfold mbind, M_bind. rewrite process_new_task_eq.
    by destruct (strip _).
  - unfold notify_next_handlers at 1. rewrite H2, decide_False; [done|].
    unfold notify_next_handlers. rewrite H1, decide_True by done.
    unfold mbind, M_bind. rewrite process_new_task_eq.
    destruct (strip _); simpl;
      rewrite elem_of_difference, elem_of_singleton; tauto.
  - unfold notify_next_handlers. rewrite H2. by rewrite decide_False.
Qed.

Lemma next_step_used_once_witness :
  (notify_next_handlers (Message 5 7 (Some (lit "/list")))
     (handle_new (Message 5 7 (Some (lit "/new"))) (World ∅ 0 ∅ [])).2).1
  = Ok true.
Proof.
  refine (proj1 (proj2 (next_step_used_once
    (Message 5 7 (Some (lit "/new"))) (Message 5 7 (Some (lit "/list")))
    (Message 5 7 (Some (lit "x"))) (World ∅ 0 ∅ []) _ _ _))); reflexivity.
Defined.

(** * The connection pool *)

Section PoolProperties.

Variables pool err : Type.
Variable new_pool : nat → pool + err.

Lemma attempts_first_success
    (delay : Z) (n k m : nat) (last : option err) (slept : list Z) (p : pool) :
  0 ≤ delay → (m < n)%nat →
  (∀ j, (j < m)%nat → ∃ e, new_pool (k + j) = inr e) →
  new_pool (k + m) = inl p →
  attempts pool err new_pool delay n k last slept
    = (inl p, slept ++ replicate m delay).
Proof.
  intros Hd. revert n k last slept.
  induction m as [|m IH]; intros n k last slept Hn Hfail Hok.
  - destruct n as [|n]; [lia|]. simpl. rewrite Nat.add_0_r in Hok.
    by rewrite Hok, app_nil_r.
  - destruct n as [|n]; [lia|]. simpl.
    destruct (Hfail 0%nat ltac:(lia)) as [e He].
    rewrite Nat.add_0_r in He. rewrite He.
    destruct (delay <? 0) eqn:Hneg; [lia|].
    rewrite (IH n (S k) (Some e) (slept ++ [delay])).
    + by rewrite <-app_assoc.
    + lia.
    + intros j Hj. destruct (Hfail (S j) ltac:(lia)) as [e' He'].
      exists e'. by rewrite <-He', Nat.add_succ_r.
    + by rewrite <-Hok, Nat.add_succ_r.
Qed.

Lemma attempts_all_fail
    (delay : Z) (n k : nat) (last : option err) (slept : list Z) :
  0 ≤ delay →
  (∀ j, (j < n)%nat → ∃ e, new_pool (k + j) = inr e) →
  ∃ last', attempts pool err new_pool delay n k last slept
             = (inr (match last' with
                     | Some e => Reraised e
                     | None => RaiseNone
                     end), slept ++ replicate n delay) ∧
           match n with
           | O => last' = last
           | S n' => ∃ e, new_pool (k + n') = inr e ∧ last' = Some e
           end.
Proof.
  intros Hd. revert k last slept.
  induction n as [|n IH]; intros k last slept Hfail; simpl.
  - exists last. by rewrite app_nil_r.
  - destruct (Hfail 0%nat ltac:(lia)) as [e He].
    rewrite Nat.add_0_r in He. rewrite He.
    destruct (delay <? 0) eqn:Hneg; [lia|].
    destruct (IH (S k) (Some e) (slept ++ [delay])) as (last' & -> & Hlast).
    { intros j Hj. destruct (Hfail (S j) ltac:(lia)) as [e' He'].
      exists e'. by rewrite <-He', Nat.add_succ_r. }
    exists last'. split; [by rewrite <-app_assoc|].
    destruct n as [|n'].
    + exists e. by rewrite Nat.add_0_r.
    + destruct Hlast as (e' & He' & ->). exists e'. split; [|done].
      by rewrite <-He', Nat.add_succ_r.
Qed.

(** X21: [create_pool_with_retry] returns the pool of the first attempt
    that succeeds, when that is one of the first [retries] attempts, and has
    then slept [delay] once for each attempt that failed before it. *)
Theorem create_pool_first_success (retries delay : Z) (m : nat) (p : pool) :
  0 ≤ delay → (m < Z.to_nat retries)%nat →
  (∀ j, (j < m)%nat → ∃ e, new_pool j = inr e) →
  new_pool m = inl p →
  create_pool_with_retry pool err new_pool retries delay
    = (inl p, replicate m delay).
Proof.
  intros Hd Hm Hfail Hok. unfold create_pool_with_retry.
  by rewrite (attempts_first_success delay _ 0 m None [] p).
Qed.

(** X22: when all [retries] attempts fail (there is at least one),
    [create_pool_with_retry] raises the exception of the last attempt; it
    has slept [delay] after every attempt, the last one included. *)
Theorem create_pool_all_fail (retries delay : Z) (e : err) :
  0 ≤ delay → 1 ≤ retries →
  (∀ j, (j < Z.to_nat retries)%nat → ∃ e', new_pool j = inr e') →
  new_pool (Z.to_nat retries - 1) = inr e →
  create_pool_with_retry pool err new_pool retries delay
    = (inr (Reraised e), replicate (Z.to_nat retries) delay).
Proof.
  intros Hd Hr Hfail Hlast. unfold create_pool_with_retry.
  destruct (attempts_all_fail delay (Z.to_nat retries) 0 None [] Hd Hfail)
    as (last' & -> & Hl).
  destruct (Z.to_nat retries) as [|n] eqn:En; [lia|].
  destruct Hl as (e' & He' & ->). simpl in *.
  rewrite Nat.sub_0_r in Hlast. rewrite Hlast in He'. by injection He' as ->.
Qed.

(** X23: with [retries] zero or negative no attempt is made and nothing
    is slept; [last_exc] is still None, so [raise last_exc] fails with
    TypeError. *)
Theorem create_pool_no_attempt (retries delay : Z) :
  retries ≤ 0 →
  create_pool_with_retry pool err new_pool retries delay
    = (inr RaiseNone, []).
Proof.
  intros Hr. unfold create_pool_with_retry.
  by replace (Z.to_nat retries) with 0%nat by lia.
Qed.

(** X24: how the program starts.  If one of the first ten attempts to
    make the pool succeeds, [get_conn] takes the connections from the pool
    of the first such attempt; if all ten fail, the program goes on without
    a pool, and [get_conn] connects directly. *)
Theorem get_conn_after_startup :
  (∀ (m : nat) (p : pool),
     (m < 10)%nat → (∀ j, (j < m)%nat → ∃ e, new_pool j = inr e) →
     new_pool m = inl p →
     get_conn pool (startup_pool pool err new_pool) = FromPool p) ∧
  ((∀ j, (j < 10)%nat → ∃ e, new_pool j = inr e) →
   get_conn pool (startup_pool pool err new_pool) = Direct).
Proof.
  split.
  - intros m p Hm Hfail Hok. unfold startup_pool, create_pool_with_retry.
    by rewrite (attempts_first_success 3 _ 0 m None [] p).
  - intros Hfail. unfold startup_pool, create_pool_with_retry.
    destruct (attempts_all_fail 3 (Z.to_nat 10) 0 None []) as (l & -> & _);
      [lia|done|]. by destruct l.
Qed.

End PoolProperties.

Lemma create_pool_first_success_witness :
  create_pool_with_retry Z Z (λ k, if (k <? 2)%nat then inr 1 else inl 7) 10 3
  = (inl 7, [3; 3]).
Proof.
  apply (create_pool_first_success Z Z _ 10 3 2 7); [lia|simpl; lia| |done].
  intros j Hj. exists 1. destruct j as [|[|j]]; [done|done|lia].
Defined.

Lemma create_pool_all_fail_witness :
  create_pool_with_retry Z Z (λ k, inr (Z.of_nat k)) 2 3
  = (inr (Reraised 1), [3; 3]).
Proof.
  apply (create_pool_all_fail Z Z _ 2 3 1); [lia|lia| |done].
  intros j _. by eexists.
Defined.

Lemma create_pool_no_attempt_witness :
  create_pool_with_retry Z Z (λ k, inl 7) 0 3 = (inr RaiseNone, []).
Proof. apply create_pool_no_attempt. lia. Defined.

(** ** The model at work *)

Example add_three :
  (list_tasks 7 false
     (run [Add 7 (lit "a") 10; Add 7 (lit "b") 20; Add 7 (lit "c") 30] ∅)).*1
  = [3; 2; 1].
Proof. vm_compute. reflexivity. Qed.

Example int_ascii_ex :
  int_ascii (lit " -1_0 ") = Some (-10) ∧ int_ascii (lit "1__0") = None ∧
  int_ascii (lit "abc") = None ∧ int_ascii (lit "") = None ∧
  int_ascii (lit "007") = Some 7.
Proof. vm_compute. auto. Qed.

Example strip_ex :
  strip (lit "  a b ") = lit "a b" ∧
  split (lit "/done  12 x") = [lit "/done"; lit "12"; lit "x"] ∧
  split1 58 (lit "done:1:2") = [lit "done"; lit "1:2"] ∧
  split1 58 (lit "ab") = [lit "ab"].
Proof. vm_compute. auto. Qed.

(** /new, then "Buy milk", /list, /done 1 and /list again. *)
Example buy_milk :
  let say (s : string) := Message 5 7 (Some (lit s)) in
  (handle_new (say "/new") ;;
   notify_next_handlers (say "Buy milk") ;;
   handle_list (say "/list") ;;
   handle_done_cmd int_ascii (say "/done 1") ;;
   handle_list (say "/list")) (World ∅ 100 ∅ [])
  = (Ok tt,
     World {[ (7, 1) := Row (lit "Buy milk") true 100 ]} 100 ∅
       [SendMessage 5 AskText; SendMessage 5 (Saved 1);
        SendMessage 5 (TaskLine (1, Row (lit "Buy milk") false 100));
        SendMessage 5 (MarkedDone 1); SendMessage 5 NoTasks]).
Proof. vm_compute. reflexivity. Qed.
